(** * fetch_vcdist: download and unpack the Visual C++ redistributables

    A shallow embedding of [fetch_vcdist.py].  The script is sequential glue
    around the operating system: it asks the file system questions, streams
    HTTP bodies to disk and starts external extractors.  Every such request
    is kept as an explicit node of a program tree; a [world] answers the
    requests and a run records the questions together with the answers.
    Theorems quantify over every world, so they hold whatever the disk, the
    network and the external tools do. *)

From Stdlib Require Import List String Ascii ZArith Bool Lia DecimalString.
Import ListNotations.

Local Open Scope Z_scope.
Local Open Scope list_scope.
Local Open Scope string_scope.

(** ** Python strings *)

Module Str.

(** [s.partition(sep)[0]] for a one-character separator: the text before
    the first occurrence of [sep], the whole of [s] when there is none. *)
Fixpoint partition_head (sep : ascii) (s : string) : string :=
  match s with
  | EmptyString => EmptyString
  | String c rest =>
      if Ascii.eqb c sep then EmptyString
      else String c (partition_head sep rest)
  end.

(** [s.startswith(p)] *)
Fixpoint startswith (p s : string) : bool :=
  match p, s with
  | EmptyString, _ => true
  | String a p', String b s' => Ascii.eqb a b && startswith p' s'
  | String _ _, EmptyString => false
  end.

Fixpoint rev_onto (s acc : string) : string :=
  match s with
  | EmptyString => acc
  | String c rest => rev_onto rest (String c acc)
  end.

Definition rev (s : string) : string := rev_onto s EmptyString.

(** [s.endswith(p)] *)
Definition endswith (p s : string) : bool := startswith (rev p) (rev s).

(** Truth value of a [str]/[bytes] object: empty is false. *)
Definition truthy (s : string) : bool :=
  match s with EmptyString => false | String _ _ => true end.

(** Text after the last occurrence of [sep]; [acc] is the text since the
    last separator seen so far. *)
Fixpoint after_last (sep : ascii) (s acc : string) : string :=
  match s with
  | EmptyString => rev acc
  | String c rest =>
      if Ascii.eqb c sep then after_last sep rest EmptyString
      else after_last sep rest (String c acc)
  end.

End Str.

(** ** [int(str)] in base 10 *)

Module PyInt.

Definition is_space (c : ascii) : bool :=
  let n := nat_of_ascii c in
  ((9 <=? n) && (n <=? 13) || (28 <=? n) && (n <=? 32))%nat.

Definition digit_of (c : ascii) : option Z :=
  let n := nat_of_ascii c in
  if ((48 <=? n) && (n <=? 57))%nat then Some (Z.of_nat n - 48) else None.

Fixpoint lstrip (l : list ascii) : list ascii :=
  match l with
  | c :: rest => if is_space c then lstrip rest else l
  | [] => []
  end.

Definition strip (l : list ascii) : list ascii :=
  List.rev (lstrip (List.rev (lstrip l))).

(** Digits with single underscores between them.  [prev] tells whether the
    previous character was a digit: an underscore needs one before it and
    one after it. *)
Fixpoint digits (acc : Z) (prev : bool) (l : list ascii) : option Z :=
  match l with
  | [] => if prev then Some acc else None
  | c :: rest =>
      match digit_of c with
      | Some d => digits (10 * acc + d) true rest
      | None =>
          if Ascii.eqb c "_"%char && prev then digits acc false rest
          else None
      end
  end.

Definition signed (l : list ascii) : option Z :=
  match l with
  | c :: rest =>
      if Ascii.eqb c "-"%char then option_map Z.opp (digits 0 false rest)
      else if Ascii.eqb c "+"%char then digits 0 false rest
      else digits 0 false l
  | [] => None
  end.

(** [int(s)]: [None] stands for the [ValueError] Python raises. *)
Definition parse (s : string) : option Z :=
  signed (strip (list_ascii_of_string s)).

End PyInt.

(** [int(version.partition('.')[0])], the major version of a catalog entry. *)
Definition major_text (version : string) : string :=
  Str.partition_head "."%char version.

Definition major_of (version : string) : option Z :=
  PyInt.parse (major_text version).

(** ** [os.path], POSIX flavour *)

Module os_path.

(** [os.path.join(a, b)]: an absolute [b] replaces [a]; otherwise the two
    are glued with one separator unless [a] is empty or already ends in
    one. *)
Definition join (a b : string) : string :=
  if Str.startswith "/" b then b
  else if negb (Str.truthy a) || Str.endswith "/" a then a ++ b
  else a ++ "/" ++ b.

(** [os.path.join(a, b, c)] folds [join] from the left. *)
Definition join3 (a b c : string) : string := join (join a b) c.

(** [os.path.basename(p)]: the text after the last separator. *)
Definition basename (p : string) : string :=
  Str.after_last "/"%char p EmptyString.

End os_path.

Arguments os_path.join : simpl never.
Arguments os_path.join3 : simpl never.
Arguments os_path.basename : simpl never.

(** ** Exceptions *)

Inductive exn : Type :=
| ValueError (msg : string)
| SystemError (msg : string)
| LibraryError (what : string).
(** [LibraryError] is whatever a library or system call raises on its own
    ([OSError], [requests.RequestException], [zipfile.BadZipFile], ...).
    The script has no [try], so any exception ends the run. *)

(** What [int(s)] raises on a malformed literal. *)
Definition invalid_literal (s : string) : exn :=
  ValueError ("invalid literal for int() with base 10: '" ++ s ++ "'").

(** ** Requests to the outside world

    One constructor per library call the script makes; the index is the type
    of the value the call returns. *)

Inductive call : Type -> Type :=
| IsFile (path : string) : call bool                    (* os.path.isfile *)
| IsDir (path : string) : call bool                     (* os.path.isdir *)
| Listdir (path : string) : call (list string)          (* os.listdir *)
| Makedirs (path : string) : call unit                  (* os.makedirs *)
| Mkdtemp : call string                                 (* tempfile.mkdtemp *)
| RequestsGet (uri : string) : call (list string)       (* requests.get, the
                                                           chunks iter_content
                                                           will deliver *)
| OpenWb (dest : string) : call unit                    (* open(dest, 'wb') *)
| WriteChunk (dest chunk : string) : call unit          (* f.write(chunk) *)
| ZipExtractAll (zip_path dest : string) : call unit    (* ZipFile.extractall *)
| SubprocessCall (args : list string) : call Z          (* subprocess.call *)
| Print (line : string) : call unit.                    (* print *)

(** ** Programs

    [prog Y A] is a computation that may [Yield] values of type [Y] on its
    way to a result of type [A]: plain functions never yield, generator
    functions do. *)

Inductive prog (Y A : Type) : Type :=
| Ret (a : A)
| Raise (e : exn)
| Yield (y : Y) (k : prog Y A)
| Vis (X : Type) (c : call X) (k : X -> prog Y A).

Arguments Ret {Y A} a.
Arguments Raise {Y A} e.
Arguments Yield {Y A} y k.
Arguments Vis {Y A X} c k.

Fixpoint bind {Y A B} (p : prog Y A) (f : A -> prog Y B) : prog Y B :=
  match p with
  | Ret a => f a
  | Raise e => Raise e
  | Yield y k => Yield y (bind k f)
  | Vis c k => Vis c (fun x => bind (k x) f)
  end.

Definition perform {Y X} (c : call X) : prog Y X := Vis c Ret.

Declare Scope prog_scope.
Delimit Scope prog_scope with prog.
Notation "x <- p ;; q" := (bind p (fun x => q))
  (at level 100, p at next level, right associativity) : prog_scope.
Notation "p ;; q" := (bind p (fun _ => q))
  (at level 100, right associativity) : prog_scope.
Local Open Scope prog_scope.

(** [for y in g: body(y)].  The generator [g] is advanced only when the loop
    asks for the next item, so its requests interleave with the body's; an
    exception from either side leaves the loop. *)
Fixpoint for_in {Y Z} (g : prog Y unit) (body : Y -> prog Z unit)
  : prog Z unit :=
  match g with
  | Ret _ => Ret tt
  | Raise e => Raise e
  | Yield y k => body y ;; for_in k body
  | Vis c k => Vis c (fun x => for_in (k x) body)
  end.

(** [for x in l: body(x)] over a list already in hand. *)
Fixpoint for_each {Y X} (l : list X) (body : X -> prog Y unit)
  : prog Y unit :=
  match l with
  | [] => Ret tt
  | x :: rest => body x ;; for_each rest body
  end.

(** ** Worlds and runs *)

Record world : Type := World {
  state : Type;
  handle : forall X, call X -> state -> (exn + X) * state
}.

Inductive event : Type :=
| Ev (X : Type) (c : call X) (answer : exn + X).

Arguments Ev {X} c answer.

Record outcome (S Y A : Type) : Type := Outcome {
  result : exn + A;
  trace : list event;
  yielded : list Y;
  final : S
}.

Arguments Outcome {S Y A}.
Arguments result {S Y A}.
Arguments trace {S Y A}.
Arguments yielded {S Y A}.
Arguments final {S Y A}.

Fixpoint run {Y A} (W : world) (p : prog Y A) (w : state W)
  : outcome (state W) Y A :=
  match p with
  | Ret a => Outcome (inr a) [] [] w
  | Raise e => Outcome (inl e) [] [] w
  | Yield y k =>
      let o := run W k w in
      Outcome (result o) (trace o) (y :: yielded o) (final o)
  | Vis c k =>
      let (r, w') := handle W _ c w in
      match r with
      | inl e => Outcome (inl e) [Ev c r] [] w'
      | inr x =>
          let o := run W (k x) w' in
          Outcome (result o) (Ev c r :: trace o) (yielded o) (final o)
      end
  end.

(** ** The script *)

(** [int(s)] as a step of a program. *)
Definition py_int {Y} (s : string) : prog Y Z :=
  match PyInt.parse s with
  | Some n => Ret n
  | None => Raise (invalid_literal s)
  end.

(** [download_file(uri, dest)] *)
Definition download_file {Y} (uri dest : string) : prog Y string :=
  present <- perform (IsFile dest) ;;
  if (present : bool) then Ret dest
  else
    chunks <- perform (RequestsGet uri) ;;
    perform (OpenWb dest) ;;
    for_each chunks (fun chunk =>
      if Str.truthy chunk then perform (WriteChunk dest chunk)
      else Ret tt) ;;
    Ret dest.

(** The one entry of [runtime_downloads] that is not commented out. *)
Definition runtime_downloads : list (string * string) :=
  [ ("14.42.34438.0",
     "https://download.visualstudio.microsoft.com/download/pr/285b28c7-3cf9-47fb-9be8-01cf5323a8df/8F9FB1B3CFE6E5092CF1225ECD6659DAB7CE50B8BF935CB79BFEDE1F3C895240/VC_redist.x64.exe") ].

(** [fetch_runtimes], a generator, over an arbitrary catalog: the table is
    data, and the commented-out rows (versions 6 to 14.40) are rows the
    author switches on and off. *)
Fixpoint fetch_runtimes_of (catalog : list (string * string))
    (download_directory : string) (include_old_versions : bool)
  : prog (string * string) unit :=
  match catalog with
  | [] => Ret tt
  | (version, download_uri) :: rest =>
      old <- (if negb include_old_versions
              then (m <- py_int (major_text version) ;; Ret (m <? 14)%Z)
              else Ret false) ;;
      if (old : bool)
      then fetch_runtimes_of rest download_directory include_old_versions
      else
        let filename := version ++ "_" ++ os_path.basename download_uri in
        destination <-
          download_file download_uri
            (os_path.join download_directory filename) ;;
        Yield (version, destination)
          (fetch_runtimes_of rest download_directory include_old_versions)
  end.

Definition fetch_runtimes := fetch_runtimes_of runtime_downloads.

(** [fetch_7zip(download_directory)] *)
Definition fetch_7zip {Y} (download_directory : string) : prog Y string :=
  let exe_path := os_path.join download_directory "__7zr.exe" in
  have_exe <- perform (IsFile exe_path) ;;
  (if (have_exe : bool) then Ret tt
   else (download_file "https://7-zip.org/a/7zr.exe" exe_path ;; Ret tt)) ;;
  let tool_archive := os_path.join download_directory "7z2301-extra.7z" in
  have_archive <- perform (IsFile tool_archive) ;;
  (if (have_archive : bool) then Ret tt
   else (download_file "https://7-zip.org/a/7z2301-extra.7z" tool_archive ;;
         Ret tt)) ;;
  let tools_path := os_path.join download_directory "_7z" in
  have_tools <- perform (IsDir tools_path) ;;
  (if (have_tools : bool) then Ret tt
   else (perform (SubprocessCall
                    [exe_path; "x"; tool_archive; "-o" ++ tools_path; "-aoa"]) ;;
         Ret tt)) ;;
  Ret (os_path.join tools_path "7za.exe").

(** [extract_old_installer(seven_zip_exe, self_extracting_archive)] *)
Definition extract_old_installer {Y}
    (seven_zip_exe self_extracting_archive : string) : prog Y string :=
  output_directory <- perform Mkdtemp ;;
  perform (SubprocessCall
             [seven_zip_exe; "x"; "-o" ++ output_directory;
              self_extracting_archive; "-i!*.cab"]) ;;
  extracted <- perform (Listdir output_directory) ;;
  match extracted with
  | [] => Raise (ValueError ("Failed to extract any cabinet file from " ++
                             self_extracting_archive ++ "."))
  | _ :: _ => Ret output_directory
  end.

(** [fetch_wix(download_directory)] *)
Definition fetch_wix {Y} (download_directory : string) : prog Y string :=
  let zip_path := os_path.join download_directory "__wix.zip" in
  have_zip <- perform (IsFile zip_path) ;;
  (if (have_zip : bool) then Ret tt
   else
     let wix := "https://github.com/wixtoolset/wix3/releases/download/" ++
                "wix3111rtm/wix311-binaries.zip" in
     (download_file wix zip_path ;; Ret tt)) ;;
  perform (ZipExtractAll zip_path (os_path.join download_directory "__wix")) ;;
  Ret (os_path.join download_directory "__wix").

(** [extract_burn_bundle(wix_tool_location, bundle_exe)] *)
Definition extract_burn_bundle {Y} (wix_tool_location bundle_exe : string)
  : prog Y string :=
  let dark_exe := os_path.join wix_tool_location "dark.exe" in
  output_directory <- perform Mkdtemp ;;
  perform (SubprocessCall
             [dark_exe; "-nologo"; "-x"; output_directory; bundle_exe]) ;;
  Ret output_directory.

(** [find_cabs(directory)], a generator. *)
Definition find_cabs (directory : string) : prog string unit :=
  let base_path :=
    os_path.join3 directory "AttachedContainer" "packages" in
  names <- perform (Listdir base_path) ;;
  for_each names (fun name =>
    if Str.endswith "_amd64" name
    then Yield (os_path.join3 base_path name "cab1.cab") (Ret tt)
    else Ret tt).

(** [extract_cab(cab_source, destination)] *)
Definition extract_cab {Y} (cab_source destination : string) : prog Y unit :=
  perform (SubprocessCall ["expand.exe"; "-F:*"; cab_source; destination]) ;;
  Ret tt.

(** The [if major_version < 11:] block of [fetch_all]. *)
Definition legacy_block {Y}
    (download_directory installer output_directory : string) : prog Y unit :=
  seven_zip_exe <- fetch_7zip download_directory ;;
  cab_directory <- extract_old_installer seven_zip_exe installer ;;
  cabs <- perform (Listdir cab_directory) ;;
  for_each cabs (fun cab =>
    extract_cab (os_path.join cab_directory cab) output_directory).

(** The last statement of the loop of [fetch_all]. *)
Definition bundle_block {Y}
    (wix_tool_location installer output_directory : string) : prog Y unit :=
  bundle <- extract_burn_bundle wix_tool_location installer ;;
  for_in (find_cabs bundle) (fun cab => extract_cab cab output_directory).

Definition msg_2010 : string :=
  "Cannot extract Visual C++ 2010 runtime. Skipping.".

(** What the loop of [fetch_all] does once the listing of the output
    directory is known; each [continue] ends the iteration. *)
Definition dispatch {Y}
    (download_directory wix_tool_location ver installer output_directory
       : string)
    (major_version : Z) (listing : list string) : prog Y unit :=
  match listing with
  | _ :: _ => perform (Print ("Already have " ++ ver))
  | [] =>
      if (major_version =? 10)%Z then perform (Print msg_2010)
      else if (major_version <? 11)%Z
      then legacy_block download_directory installer output_directory
      else bundle_block wix_tool_location installer output_directory
  end.

(** The body of the [for ver, installer in fetch_runtimes(...)] loop. *)
Definition fetch_all_body {Y}
    (base_directory download_directory wix_tool_location : string)
    (item : string * string) : prog Y unit :=
  let (ver, installer) := item in
  let output_directory := os_path.join base_directory ("vcruntime_" ++ ver) in
  is_dir <- perform (IsDir output_directory) ;;
  (if (is_dir : bool) then Ret tt else perform (Makedirs output_directory)) ;;
  major_version <- py_int (major_text ver) ;;
  listing <- perform (Listdir output_directory) ;;
  dispatch download_directory wix_tool_location ver installer
    output_directory major_version listing.

(** [fetch_all(base_directory, include_old_versions)] over a catalog. *)
Definition fetch_all_of {Y} (catalog : list (string * string))
    (base_directory : string) (include_old_versions : bool) : prog Y unit :=
  let download_directory := os_path.join base_directory "Downloads" in
  have_downloads <- perform (IsDir download_directory) ;;
  if negb have_downloads
  then Raise (SystemError ("The download directory does not exist: " ++
                           download_directory))
  else
    wix_tool_location <- fetch_wix download_directory ;;
    for_in (fetch_runtimes_of catalog download_directory include_old_versions)
      (fetch_all_body base_directory download_directory wix_tool_location).

Definition fetch_all {Y} := @fetch_all_of Y runtime_downloads.

(** ** An in-memory world

    A small file system keyed by path strings, a table of downloadable
    bodies, and scripted archive contents and tool effects.  It serves to run
    the script on concrete disks; the theorems do not depend on it. *)

Module MemFS.

Inductive node : Type :=
| File (data : string)
| Dir (entries : list string).

Record t : Type := Make {
  nodes : list (string * node);
  (** bodies served by the network, as chunks; other URIs fail *)
  net : list (string * list string);
  (** members (relative name, data) of an archive, by archive data *)
  archives : list (string * list (string * string));
  (** files (path, data) an external command leaves behind, by argv *)
  tools : list (list string * list (string * string));
  temps : nat
}.

Fixpoint assoc {K V} (eqb : K -> K -> bool) (k : K) (l : list (K * V))
  : option V :=
  match l with
  | [] => None
  | (k', v) :: rest => if eqb k k' then Some v else assoc eqb k rest
  end.

Definition lookup (p : string) (s : list (string * node)) : option node :=
  assoc String.eqb p s.

Definition is_file (s : list (string * node)) (p : string) : bool :=
  match lookup p s with Some (File _) => true | _ => false end.

Definition is_dir (s : list (string * node)) (p : string) : bool :=
  match lookup p s with Some (Dir _) => true | _ => false end.

Definition nonempty_dir (s : list (string * node)) (p : string) : bool :=
  match lookup p s with Some (Dir (_ :: _)) => true | _ => false end.

(** Directory part of a path: the text before the last separator, the root
    for a top-level name. *)
Fixpoint drop_name (r : string) : string :=
  match r with
  | EmptyString => EmptyString
  | String c rest => if Ascii.eqb c "/"%char then rest else drop_name rest
  end.

Definition parent (p : string) : string :=
  let d := Str.rev (drop_name (Str.rev p)) in
  if negb (Str.truthy d) && Str.startswith "/" p then "/" else d.

(** Enter the last component of [p] in the listing of its directory. *)
Definition link (p : string) (s : list (string * node))
  : list (string * node) :=
  let name := os_path.basename p in
  match lookup (parent p) s with
  | Some (Dir entries) =>
      if existsb (String.eqb name) entries then s
      else (parent p, Dir (entries ++ [name])%list) :: s
  | _ => s
  end.

Definition open_wb (p : string) (s : list (string * node))
  : exn + list (string * node) :=
  match lookup p s with
  | Some (Dir _) => inl (LibraryError "IsADirectoryError")
  | _ =>
      if is_dir s (parent p) then inr (link p ((p, File "") :: s))
      else inl (LibraryError "FileNotFoundError")
  end.

Definition mkdir (p : string) (s : list (string * node))
  : exn + list (string * node) :=
  match lookup p s with
  | Some (Dir _) => inr s
  | Some (File _) => inl (LibraryError "NotADirectoryError")
  | None => inr (link p ((p, Dir []) :: s))
  end.

(** The path and each of its ancestors, outermost first. *)
Fixpoint ancestors (pre s : string) : list string :=
  match s with
  | EmptyString => if Str.truthy pre then [pre] else []
  | String c rest =>
      if Ascii.eqb c "/"%char
      then ((if Str.truthy pre then [pre] else []) ++
            ancestors (pre ++ "/") rest)%list
      else ancestors (pre ++ String c EmptyString) rest
  end.

Fixpoint mkdirs (ps : list string) (s : list (string * node))
  : exn + list (string * node) :=
  match ps with
  | [] => inr s
  | p :: rest =>
      match mkdir p s with
      | inl e => inl e
      | inr s' => mkdirs rest s'
      end
  end.

(** Create or replace the file [p] with [data], making its directories
    first, as an extractor does; a file that cannot be written is left
    out. *)
Definition put_file (s : list (string * node)) (f : string * string)
  : list (string * node) :=
  let (p, data) := f in
  match mkdirs (ancestors "" (parent p)) s with
  | inl _ => s
  | inr s1 =>
      match open_wb p s1 with
      | inl _ => s
      | inr s2 => (p, File data) :: s2
      end
  end.

Definition show_nat (n : nat) : string :=
  DecimalString.NilEmpty.string_of_uint (Nat.to_uint n).

Definition with_nodes (w : t) (s : list (string * node)) : t :=
  Make s (net w) (archives w) (tools w) (temps w).

Definition lift {X} (w : t) (x : X) (r : exn + list (string * node))
  : (exn + X) * t :=
  match r with
  | inl e => (inl e, w)
  | inr s => (inr x, with_nodes w s)
  end.

Definition respond (X : Type) (c : call X) (w : t) : (exn + X) * t :=
  let s := nodes w in
  match c in call X return (exn + X) * t with
  | IsFile p => (inr (is_file s p), w)
  | IsDir p => (inr (is_dir s p), w)
  | Listdir p =>
      match lookup p s with
      | Some (Dir entries) => (inr entries, w)
      | Some (File _) => (inl (LibraryError "NotADirectoryError"), w)
      | None => (inl (LibraryError "FileNotFoundError"), w)
      end
  | Makedirs p =>
      match lookup p s with
      | Some _ => (inl (LibraryError "FileExistsError"), w)
      | None =>
          match mkdirs (ancestors "" (parent p)) s with
          | inl e => (inl e, w)
          | inr s' => lift w tt (mkdir p s')
          end
      end
  | Mkdtemp =>
      let p := "/tmp/tmp" ++ show_nat (temps w) in
      let w' := Make s (net w) (archives w) (tools w) (S (temps w)) in
      match lookup p s with
      | Some _ => (inl (LibraryError "FileExistsError"), w')
      | None => lift w' p (mkdir p s)
      end
  | RequestsGet uri =>
      match assoc String.eqb uri (net w) with
      | Some chunks => (inr chunks, w)
      | None => (inl (LibraryError "ConnectionError"), w)
      end
  | OpenWb p => lift w tt (open_wb p s)
  | WriteChunk p chunk =>
      match lookup p s with
      | Some (File data) => (inr tt, with_nodes w ((p, File (data ++ chunk)) :: s))
      | _ => (inl (LibraryError "ValueError: I/O operation on closed file"), w)
      end
  | ZipExtractAll zip_path dest =>
      match lookup zip_path s with
      | Some (File data) =>
          match assoc String.eqb data (archives w) with
          | Some members =>
              match mkdirs (ancestors "" dest) s with
              | inl e => (inl e, w)
              | inr s' =>
                  (inr tt,
                   with_nodes w
                     (fold_left put_file
                        (map (fun m => (os_path.join dest (fst m), snd m))
                           members) s'))
              end
          | None => (inl (LibraryError "BadZipFile"), w)
          end
      | _ => (inl (LibraryError "FileNotFoundError"), w)
      end
  | SubprocessCall args =>
      match args with
      | exe :: _ =>
          if is_file s exe || String.eqb exe "expand.exe"
          then
            match assoc (fun a b => if list_eq_dec string_dec a b
                                    then true else false) args (tools w) with
            | Some files => (inr 0%Z, with_nodes w (fold_left put_file files s))
            | None => (inr 1%Z, w)
            end
          else (inl (LibraryError "FileNotFoundError"), w)
      | [] => (inl (LibraryError "IndexError"), w)
      end
  | Print _ => (inr tt, w)
  end.

Definition W : world := World t respond.

(** Replacing [old] by [new] at a path keeps what was there: a file stays
    a file, a directory a directory, entries stay entries. *)
Definition keeps (old : option node) (new : node) : Prop :=
  match old, new with
  | None, _ => True
  | Some (File _), File _ => True
  | Some (Dir []), Dir _ => True
  | Some (Dir (_ :: _)), Dir (_ :: _) => True
  | _, _ => False
  end.

(** The three observations the laws of a file system are stated in. *)
Definition isfile (w : t) : string -> bool := is_file (nodes w).
Definition isdir (w : t) : string -> bool := is_dir (nodes w).
Definition nonempty (w : t) : string -> bool := nonempty_dir (nodes w).

(** A disk with the given nodes, no network and no scripted tools. *)
Definition offline (s : list (string * node)) : t := Make s [] [] [] 0.

End MemFS.

(** ** Reading runs *)

(** [t] happened first, then [o]. *)
Definition prepend {S Y A} (t : list event) (o : outcome S Y A)
  : outcome S Y A :=
  Outcome (result o) (t ++ trace o)%list (yielded o) (final o).

(** Lift a reading of requests to events. *)
Definition about {T} (f : forall X, call X -> T) (e : event) : T :=
  match e with Ev c _ => f _ c end.

Definition network {X} (c : call X) : bool :=
  match c with RequestsGet _ => true | _ => false end.

Definition subprocess {X} (c : call X) : bool :=
  match c with SubprocessCall _ => true | _ => false end.

Definition zip_extract {X} (c : call X) : bool :=
  match c with ZipExtractAll _ _ => true | _ => false end.

Definition is_network : event -> bool := about (@network).
Definition is_subprocess : event -> bool := about (@subprocess).
Definition is_zip_extract : event -> bool := about (@zip_extract).

(** Anything that unpacks an archive: an external extractor or [zipfile]. *)
Definition is_extraction (e : event) : bool :=
  is_subprocess e || is_zip_extract e.



(** The argument vector of a request that starts a process. *)
Definition argv {X} (c : call X) : option (list string) :=
  match c with SubprocessCall args => Some args | _ => None end.



(** [p] makes only requests that satisfy [P], whatever it is answered. *)
Fixpoint only {Y A} (P : forall X, call X -> Prop) (p : prog Y A) : Prop :=
  match p with
  | Ret _ => True
  | Raise _ => True
  | Yield _ k => only P k
  | Vis c k => P _ c /\ forall x, only P (k x)
  end.

(** Requests that run somebody else's program. *)
Definition external {X} (c : call X) : bool :=
  match c with SubprocessCall _ => true | _ => false end.

(** One world has grown into another: files stay files, directories stay
    directories, and a directory with entries keeps having entries. *)
Definition grows {S} (isfile isdir nonempty : S -> string -> bool)
    (w w' : S) : Prop :=
  forall p,
    (isfile w p = true -> isfile w' p = true) /\
    (isdir w p = true -> isdir w' p = true) /\
    (nonempty w p = true -> nonempty w' p = true).

(** What the theorems about the disk assume of a file system, in terms of
    three observations of its state: the answers to [isfile], [isdir] and
    [listdir] tell the truth, [open] and [makedirs] create what they say,
    and nothing the script does itself ever removes a file or a directory
    entry.  External programs are not constrained. *)
Record lawful (W : world)
    (isfile isdir nonempty : state W -> string -> bool) : Prop := Lawful {
  sound_isfile : forall p w b w',
    handle W _ (IsFile p) w = (inr b, w') -> isfile w p = b;
  sound_isdir : forall p w b w',
    handle W _ (IsDir p) w = (inr b, w') -> isdir w p = b;
  sound_listdir : forall p w l w',
    handle W _ (Listdir p) w = (inr l, w') ->
    nonempty w p = match l with [] => false | _ :: _ => true end;
  open_creates : forall p w w',
    handle W _ (OpenWb p) w = (inr tt, w') -> isfile w' p = true;
  makedirs_creates : forall p w w',
    handle W _ (Makedirs p) w = (inr tt, w') -> isdir w' p = true;
  only_grows : forall X (c : call X) w,
    external c = false ->
    grows isfile isdir nonempty w (snd (handle W X c w))
}.

(** ** Names the script gives to things *)

(** Where [fetch_runtimes] stores the installer of a catalog entry. *)
Definition installer_path (download_directory : string)
    (entry : string * string) : string :=
  os_path.join download_directory
    (fst entry ++ "_" ++ os_path.basename (snd entry)).

(** The output directory of a version. *)
Definition output_path (base_directory ver : string) : string :=
  os_path.join base_directory ("vcruntime_" ++ ver).

(** An entry the generator does not filter out. *)
Definition considered (include_old_versions : bool) (version : string)
  : bool :=
  include_old_versions ||
  match major_of version with
  | Some m => (14 <=? m)%Z
  | None => false
  end.

(** ** Programs that behave alike

    Equality of program trees up to the extension of their continuations. *)

Inductive eqp {Y A} : prog Y A -> prog Y A -> Prop :=
| eqp_ret a : eqp (Ret a) (Ret a)
| eqp_raise e : eqp (Raise e) (Raise e)
| eqp_yield y k k' : eqp k k' -> eqp (Yield y k) (Yield y k')
| eqp_vis X (c : call X) k k' :
    (forall x, eqp (k x) (k' x)) -> eqp (Vis c k) (Vis c k').

(** Every value [p] can return satisfies [P]. *)
Fixpoint returns {Y A} (P : A -> Prop) (p : prog Y A) : Prop :=
  match p with
  | Ret a => P a
  | Raise _ => True
  | Yield _ k => returns P k
  | Vis _ k => forall x, returns P (k x)
  end.

(** ** Requests by component *)

(** What [download_file uri dest] may ask for. *)
Definition download_requests (uri dest : string) X (c : call X) : Prop :=
  match c with
  | IsFile p => p = dest
  | RequestsGet u => u = uri
  | OpenWb p => p = dest
  | WriteChunk p _ => p = dest
  | _ => False
  end.



(** [p] is no generator: it never yields. *)
Fixpoint silent {Y A} (p : prog Y A) : Prop :=
  match p with
  | Ret _ => True
  | Raise _ => True
  | Yield _ _ => False
  | Vis _ k => forall x, silent (k x)
  end.

(** What [fetch_runtimes] yields for a catalog entry. *)
Definition stored (download_directory : string) (entry : string * string)
  : string * string :=
  (fst entry, installer_path download_directory entry).

(** ** The check on the output directory *)





(** ** One turn of the loop *)

(** The part of [fetch_all]'s loop that belongs to one catalog entry: the
    generator's work on the entry, interleaved with the loop body on what
    it yields. *)
Definition iteration {Y}
    (base_directory download_directory wix_tool_location : string)
    (include_old_versions : bool) (entry : string * string) : prog Y unit :=
  for_in (fetch_runtimes_of [entry] download_directory include_old_versions)
    (fetch_all_body base_directory download_directory wix_tool_location).

(** Requests whose effect is the script's own doing. *)
Definition internal X (c : call X) : Prop := external c = false.

(** A request that reaches the network or starts a process. *)
Definition noisy (e : event) : bool := is_network e || is_subprocess e.

(** The entries of a catalog that pass the filter have their installer in
    place and entries in their output directory. *)
Definition cached {S} (isfile nonempty : S -> string -> bool)
    (base_directory download_directory : string)
    (include_old_versions : bool) (catalog : list (string * string))
    (w : S) : Prop :=
  forall entry,
    In entry catalog ->
    considered include_old_versions (fst entry) = true ->
    isfile w (installer_path download_directory entry) = true /\
    nonempty w (output_path base_directory (fst entry)) = true.

(** ** Sample disks *)

Module Sample.

Import MemFS.

Definition installer_uri : string := snd (hd ("", "") runtime_downloads).

Definition wix_uri : string :=
  "https://github.com/wixtoolset/wix3/releases/download/wix3111rtm/wix311-binaries.zip".

(** A destination [/r] holding nothing but an empty [Downloads]. *)
Definition fresh : list (string * node) :=
  [ ("/", Dir ["r"; "tmp"]);
    ("/tmp", Dir []);
    ("/r", Dir ["Downloads"]);
    ("/r/Downloads", Dir []) ].

(** A destination [/r] without [Downloads]. *)
Definition bare : list (string * node) :=
  [ ("/", Dir ["r"; "tmp"]);
    ("/tmp", Dir []);
    ("/r", Dir []) ].

(** A destination whose [Downloads] holds a file that is no installer at
    all: a cache entry is never validated. *)
Definition stale : list (string * node) :=
  [ ("/", Dir ["r"; "tmp"]);
    ("/tmp", Dir []);
    ("/r", Dir ["Downloads"]);
    ("/r/Downloads", Dir ["9.0_vcredist.exe"]);
    ("/r/Downloads/9.0_vcredist.exe", File "not an installer") ].

(** An unpacked bundle whose [packages] holds, next to the package
    directories, a plain file with an architecture suffix. *)
Definition odd_bundle : list (string * node) :=
  [ ("/b", Dir ["AttachedContainer"]);
    ("/b/AttachedContainer", Dir ["packages"]);
    ("/b/AttachedContainer/packages",
     Dir ["vcRuntimeMinimum_amd64"; "notes_amd64"; "vcRuntimeMinimum_x86"]);
    ("/b/AttachedContainer/packages/vcRuntimeMinimum_amd64", Dir ["cab1.cab"]);
    ("/b/AttachedContainer/packages/vcRuntimeMinimum_amd64/cab1.cab",
     File "MSCF");
    ("/b/AttachedContainer/packages/notes_amd64", File "release notes");
    ("/b/AttachedContainer/packages/vcRuntimeMinimum_x86", Dir []) ].

Definition installer : string :=
  "/r/Downloads/14.42.34438.0_VC_redist.x64.exe".

(** A world with the destination of [fresh], a network that serves the
    four downloads, and tools that behave: the WiX archive holds
    [dark.exe], [7zr] unpacks [7za.exe], [dark.exe] unpacks one amd64
    package, and [expand.exe] leaves one DLL. *)
Definition online : t :=
  Make fresh
    [ (wix_uri, ["PK"; ""; "wix"]);
      (installer_uri, ["MZ"; "burn"]);
      ("https://7-zip.org/a/7zr.exe", ["MZ7zr"]);
      ("https://7-zip.org/a/7z2301-extra.7z", ["7z"; "extra"]) ]
    [ ("PKwix", [("dark.exe", "MZdark")]) ]
    [ (["/r/Downloads/__7zr.exe"; "x"; "/r/Downloads/7z2301-extra.7z";
        "-o/r/Downloads/_7z"; "-aoa"],
       [("/r/Downloads/_7z/7za.exe", "MZ7za")]);
      (["/r/Downloads/__wix/dark.exe"; "-nologo"; "-x"; "/tmp/tmp0";
        installer],
       [("/tmp/tmp0/AttachedContainer/packages/vcRuntimeMinimum_amd64/cab1.cab",
         "MSCF")]);
      (["expand.exe"; "-F:*";
        "/tmp/tmp0/AttachedContainer/packages/vcRuntimeMinimum_amd64/cab1.cab";
        "/r/vcruntime_14.42.34438.0"],
       [("/r/vcruntime_14.42.34438.0/vcruntime140.dll", "MZdll")]) ]
    0.

(** A row of the table that is commented out in the script. *)
Definition vc2008 : string * string :=
  ("9.0.30729.4148",
   "https://download.microsoft.com/download/9/7/7/977B481A-7BA6-4E30-AC40-ED51EB2028F2/vcredist_x64.exe").


Definition installer_2008 : string :=
  "/r/Downloads/9.0.30729.4148_vcredist_x64.exe".

Definition installer_2010 : string :=
  "/r/Downloads/10.0.40219.32503_vcredist_x64.exe".

(** A destination with the 2008 and 2010 installers and the 7-Zip tools
    in place, an output directory for 2008 that exists but is empty, and
    none yet for 2010. *)
Definition old_disk : list (string * node) :=
  [ ("/", Dir ["r"; "tmp"]);
    ("/tmp", Dir []);
    ("/r", Dir ["Downloads"; "vcruntime_9.0.30729.4148"]);
    ("/r/vcruntime_9.0.30729.4148", Dir []);
    ("/r/Downloads",
     Dir ["9.0.30729.4148_vcredist_x64.exe";
          "10.0.40219.32503_vcredist_x64.exe";
          "__7zr.exe"; "7z2301-extra.7z"; "_7z"]);
    (installer_2008, File "MZ2008");
    (installer_2010, File "MZ2010");
    ("/r/Downloads/__7zr.exe", File "MZ7zr");
    ("/r/Downloads/7z2301-extra.7z", File "7zextra");
    ("/r/Downloads/_7z", Dir ["7za.exe"]);
    ("/r/Downloads/_7z/7za.exe", File "MZ7za") ].

(** On [old_disk], 7-Zip finds one cabinet in the 2008 installer and
    [expand.exe] leaves one file. *)
Definition old_world : t :=
  Make old_disk [] []
    [ (["/r/Downloads/_7z/7za.exe"; "x"; "-o/tmp/tmp0"; installer_2008;
        "-i!*.cab"],
       [("/tmp/tmp0/vc_red.cab", "MSCF")]);
      (["expand.exe"; "-F:*"; "/tmp/tmp0/vc_red.cab";
        "/r/vcruntime_9.0.30729.4148"],
       [("/r/vcruntime_9.0.30729.4148/F_CENTRAL_msvcr90_x64", "MZdll")]) ]
    0.


(** The world a first complete run of the script leaves behind. *)
Definition done : t :=
  final (run W (@fetch_all Empty_set "/r" false) online).

(** A destination that lacks only the WiX archive: the installer is in
    [Downloads] and the output directory has its DLL. *)
Definition no_wix_archive : t :=
  Make
    [ ("/", Dir ["r"; "tmp"]);
      ("/tmp", Dir []);
      ("/r", Dir ["Downloads"; "vcruntime_14.42.34438.0"]);
      ("/r/Downloads", Dir ["14.42.34438.0_VC_redist.x64.exe"]);
      (installer, File "MZburn");
      ("/r/vcruntime_14.42.34438.0", Dir ["vcruntime140.dll"]);
      ("/r/vcruntime_14.42.34438.0/vcruntime140.dll", File "MZdll") ]
    (net online) (archives online) (tools online) 0.

End Sample.

(** ** Further readings of programs and runs *)

(** Every value [p] yields satisfies [Q]. *)
Fixpoint yields {Y A} (Q : Y -> Prop) (p : prog Y A) : Prop :=
  match p with
  | Ret _ => True
  | Raise _ => True
  | Yield y k => Q y /\ yields Q k
  | Vis _ k => forall x, yields Q (k x)
  end.

(** The chunk a request hands to [f.write], if it is one. *)
Definition chunk_of {X} (c : call X) : list string :=
  match c with WriteChunk _ chunk => [chunk] | _ => [] end.

(** The chunks written in the course of a run, in order. *)
Definition written_chunks (t : list event) : list string :=
  flat_map (about (@chunk_of)) t.

(** The argument vectors of the processes started in the course of a run,
    in order. *)
Definition processes (t : list event) : list (list string) :=
  flat_map (fun e => match about (@argv) e with
                     | Some args => [args]
                     | None => []
                     end) t.

(** [expand.exe -F:* <source> <destination>] for each source. *)
Definition expand_calls (sources : list string) (destination : string)
  : list (list string) :=
  map (fun source => ["expand.exe"; "-F:*"; source; destination]) sources.



(** ** A disk without room

    The in-memory world, except that every [f.write] fails. *)

Module FullDisk.

Definition respond (X : Type) (c : call X) (w : MemFS.t)
  : (exn + X) * MemFS.t :=
  match c in call X0 return (exn + X0) * MemFS.t with
  | WriteChunk _ _ =>
      (inl (LibraryError "OSError: No space left on device"), w)
  | other => MemFS.respond _ other w
  end.

Definition W : world := World MemFS.t respond.

End FullDisk.

(** The world of [Sample.online] once the WiX tools and the installer of
    the catalog's entry have been fetched. *)
Definition fetched : MemFS.t :=
  final (run MemFS.W
           (@fetch_wix Empty_set "/r/Downloads" ;;
            download_file Sample.installer_uri Sample.installer)
           Sample.online).

(** ** The footprint of a run *)

(** The three downloads that are tools, not runtimes. *)
Definition tool_uris : list string :=
  [ "https://github.com/wixtoolset/wix3/releases/download/" ++
    "wix3111rtm/wix311-binaries.zip";
    "https://7-zip.org/a/7zr.exe";
    "https://7-zip.org/a/7z2301-extra.7z" ].

(** The files the tool downloads are stored in. *)
Definition tool_files (download_directory : string) : list string :=
  [ os_path.join download_directory "__wix.zip";
    os_path.join download_directory "__7zr.exe";
    os_path.join download_directory "7z2301-extra.7z" ].

(** An entry of the catalog that passes the age filter. *)
Definition listed (catalog : list (string * string))
    (include_old_versions : bool) (entry : string * string) : Prop :=
  In entry catalog /\ considered include_old_versions (fst entry) = true.

(** What a run of [fetch_all] may ask of the network: a tool, or the URL
    of a listed entry. *)
Definition network_footprint (catalog : list (string * string))
    (include_old_versions : bool) X (c : call X) : Prop :=
  match c with
  | RequestsGet uri =>
      In uri tool_uris \/
      exists entry, listed catalog include_old_versions entry /\
                    uri = snd entry
  | _ => True
  end.

(** What a run of [fetch_all] may itself write or make: tool files and
    installers of listed entries in the download directory, the [__wix]
    directory, and the output directories of listed entries. *)
Definition disk_footprint (catalog : list (string * string))
    (base_directory : string) (include_old_versions : bool)
    X (c : call X) : Prop :=
  let download_directory := os_path.join base_directory "Downloads" in
  let stored_file p :=
    In p (tool_files download_directory) \/
    exists entry, listed catalog include_old_versions entry /\
                  p = installer_path download_directory entry in
  match c with
  | OpenWb p => stored_file p
  | WriteChunk p _ => stored_file p
  | Makedirs p =>
      exists entry, listed catalog include_old_versions entry /\
                    p = output_path base_directory (fst entry)
  | ZipExtractAll zip_path dest =>
      zip_path = os_path.join download_directory "__wix.zip" /\
      dest = os_path.join download_directory "__wix"
  | _ => True
  end.

(** The processes a run of [fetch_all] may start: [7zr] on the tool
    archive, [7za] or [dark.exe] on the installer of a listed entry, and
    [expand.exe] into the output directory of a listed entry. *)
Definition process_shape (catalog : list (string * string))
    (base_directory : string) (include_old_versions : bool)
    (args : list string) : Prop :=
  let download_directory := os_path.join base_directory "Downloads" in
  args = [ os_path.join download_directory "__7zr.exe"; "x";
           os_path.join download_directory "7z2301-extra.7z";
           "-o" ++ os_path.join download_directory "_7z"; "-aoa" ] \/
  (exists tmp entry,
      listed catalog include_old_versions entry /\
      args = [ os_path.join (os_path.join download_directory "_7z") "7za.exe";
               "x"; "-o" ++ tmp; installer_path download_directory entry;
               "-i!*.cab" ]) \/
  (exists tmp entry,
      listed catalog include_old_versions entry /\
      args = [ os_path.join (os_path.join download_directory "__wix")
                 "dark.exe";
               "-nologo"; "-x"; tmp;
               installer_path download_directory entry ]) \/
  (exists source entry,
      listed catalog include_old_versions entry /\
      args = [ "expand.exe"; "-F:*"; source;
               output_path base_directory (fst entry) ]).

Definition process_footprint (catalog : list (string * string))
    (base_directory : string) (include_old_versions : bool)
    X (c : call X) : Prop :=
  match c with
  | SubprocessCall args =>
      process_shape catalog base_directory include_old_versions args
  | _ => True
  end.

(** The lines a run of [fetch_all] may print. *)
Definition print_footprint (catalog : list (string * string))
    (include_old_versions : bool) X (c : call X) : Prop :=
  match c with
  | Print line =>
      line = msg_2010 \/
      exists entry, listed catalog include_old_versions entry /\
                    line = "Already have " ++ fst entry
  | _ => True
  end.

Definition footprint (catalog : list (string * string))
    (base_directory : string) (include_old_versions : bool)
    X (c : call X) : Prop :=
  network_footprint catalog include_old_versions X c /\
  disk_footprint catalog base_directory include_old_versions X c /\
  process_footprint catalog base_directory include_old_versions X c /\
  print_footprint catalog include_old_versions X c.


(** * Properties *)

(** ** Runs of composed programs *)

Lemma run_bind {Y A B} (W : world) (p : prog Y A) (f : A -> prog Y B) :
  forall w,
    run W (bind p f) w =
    match result (run W p w) with
    | inl e =>
        Outcome (inl e) (trace (run W p w)) (yielded (run W p w))
          (final (run W p w))
    | inr a =>
        let o' := run W (f a) (final (run W p w)) in
        Outcome (result o') (trace (run W p w) ++ trace o')%list
          (yielded (run W p w) ++ yielded o')%list (final o')
    end.
Proof.
  induction p as [a | e | y k IH | X c k IH]; intro w; cbn.
  - destruct (run W (f a) w); reflexivity.
  - reflexivity.
  - rewrite IH. destruct (result (run W k w)); reflexivity.
  - destruct (handle W X c w) as [[e | x] w']; cbn.
    + reflexivity.
    + rewrite IH. destruct (result (run W (k x) w')); reflexivity.
Qed.

Lemma run_perform {Y X} (W : world) (c : call X) (w : state W) :
  run W (@perform Y X c) w =
  Outcome (fst (handle W X c w)) [Ev c (fst (handle W X c w))] []
    (snd (handle W X c w)).
Proof.
  unfold perform. cbn. destruct (handle W X c w) as [[e | x] w']; reflexivity.
Qed.

Lemma prepend_nil {S Y A} (o : outcome S Y A) : prepend [] o = o.
Proof. destruct o; reflexivity. Qed.

(** ** Equivalent programs run alike *)

Lemma eqp_refl {Y A} (p : prog Y A) : eqp p p.
Proof. induction p; constructor; auto. Qed.

Lemma eqp_run {Y A} (p q : prog Y A) :
  eqp p q -> forall W w, run W p w = run W q w.
Proof.
  induction 1 as [a | e | y k k' _ IH | X c k k' _ IH]; intros W w; cbn.
  - reflexivity.
  - reflexivity.
  - now rewrite IH.
  - destruct (handle W X c w) as [[e | x] w']; [reflexivity | now rewrite IH].
Qed.

Lemma eqp_bind {Y A B} (p : prog Y A) (f g : A -> prog Y B) :
  (forall a, eqp (f a) (g a)) -> eqp (bind p f) (bind p g).
Proof.
  intro H. induction p; cbn; try constructor; auto.
Qed.

Lemma eqp_for_in {Y Z} (g g' : prog Y unit) (body : Y -> prog Z unit) :
  eqp g g' -> eqp (for_in g body) (for_in g' body).
Proof.
  induction 1; cbn; try constructor; auto.
  apply eqp_bind. auto.
Qed.

(** ** The downloader's cache hit *)

(** C4.  When the destination already is a file, whatever its content and
    whatever the URL, [download_file] returns the destination at once: its
    only request is the [isfile] question, so no network request is made
    and nothing is opened or written, and the world it leaves is the world
    it found, the file included. *)
Theorem download_file_cache_hit {Y} (W : world) (w : state W)
    (uri dest : string) :
  handle W _ (IsFile dest) w = (inr true, w) ->
  run W (@download_file Y uri dest) w =
  Outcome (inr dest) [Ev (IsFile dest) (inr true)] [] w.
Proof.
  intro H. unfold download_file, perform. cbn. rewrite H. reflexivity.
Qed.

Lemma download_file_cache_hit_witness :
  let w := MemFS.offline Sample.stale in
  handle MemFS.W _ (IsFile "/r/Downloads/9.0_vcredist.exe") w = (inr true, w) /\
  run MemFS.W
    (@download_file Empty_set "https://example.invalid/vcredist.exe"
       "/r/Downloads/9.0_vcredist.exe") w =
  Outcome (inr "/r/Downloads/9.0_vcredist.exe")
    [Ev (IsFile "/r/Downloads/9.0_vcredist.exe") (inr true)] [] w.
Proof.
  split; [reflexivity | apply download_file_cache_hit; reflexivity].
Defined.

(** ** The guard on the download directory *)

(** C6.  When [Downloads] under the base directory is not a directory,
    [fetch_all] raises [SystemError] with the message "The download
    directory does not exist: " followed by the path.  The [isdir] question
    is its only request: no tool is fetched, nothing is downloaded or
    extracted, and the world is left as it was. *)
Theorem fetch_all_requires_downloads {Y} (W : world) (w : state W)
    (catalog : list (string * string)) (base_directory : string)
    (include_old_versions : bool) :
  handle W _ (IsDir (os_path.join base_directory "Downloads")) w
    = (inr false, w) ->
  run W (@fetch_all_of Y catalog base_directory include_old_versions) w =
  Outcome
    (inl (SystemError ("The download directory does not exist: " ++
                       os_path.join base_directory "Downloads")))
    [Ev (IsDir (os_path.join base_directory "Downloads")) (inr false)] [] w.
Proof.
  intro H. unfold fetch_all_of, perform. cbn. rewrite H. reflexivity.
Qed.

Lemma fetch_all_requires_downloads_witness :
  let w := MemFS.offline Sample.bare in
  handle MemFS.W _ (IsDir (os_path.join "/r" "Downloads")) w = (inr false, w) /\
  run MemFS.W (@fetch_all Empty_set "/r" false) w =
  Outcome
    (inl (SystemError "The download directory does not exist: /r/Downloads"))
    [Ev (IsDir "/r/Downloads") (inr false)] [] w.
Proof.
  split; [reflexivity |].
  apply (fetch_all_requires_downloads MemFS.W (MemFS.offline Sample.bare)
           runtime_downloads "/r" false).
  reflexivity.
Defined.

(** ** Requests a program can make *)

Lemma only_run {Y A} (P : forall X, call X -> Prop) (p : prog Y A) :
  only P p -> forall W w, Forall (about P) (trace (run W p w)).
Proof.
  induction p as [a | e | y k IH | X c k IH]; cbn; intros H W w.
  - constructor.
  - constructor.
  - auto.
  - destruct H as [Hc Hk].
    destruct (handle W X c w) as [[e | x] w']; cbn.
    + repeat constructor. exact Hc.
    + constructor; [exact Hc | auto].
Qed.

Lemma only_bind {Y A B} (P : forall X, call X -> Prop) (p : prog Y A)
    (f : A -> prog Y B) :
  only P p -> (forall a, only P (f a)) -> only P (bind p f).
Proof.
  induction p as [a | e | y k IH | X c k IH]; cbn; intros Hp Hf; auto.
  destruct Hp as [Hc Hk]. split; auto.
Qed.

Lemma only_for_each {Y X} (P : forall X, call X -> Prop) (l : list X)
    (body : X -> prog Y unit) :
  (forall x, only P (body x)) -> only P (for_each l body).
Proof.
  intro H. induction l as [| x l IH]; cbn; [exact I |].
  apply only_bind; auto.
Qed.

Lemma only_for_in {Y Z} (P : forall X, call X -> Prop) (g : prog Y unit)
    (body : Y -> prog Z unit) :
  only P g -> (forall y, only P (body y)) -> only P (for_in g body).
Proof.
  induction g as [a | e | y k IH | X c k IH]; cbn; intros Hg Hb; auto.
  - apply only_bind; auto.
  - destruct Hg as [Hc Hk]. split; auto.
Qed.

Lemma only_weaken {Y A} (P Q : forall X, call X -> Prop) (p : prog Y A) :
  (forall X (c : call X), P X c -> Q X c) -> only P p -> only Q p.
Proof.
  intro H. induction p as [a | e | y k IH | X c k IH]; cbn; auto.
  intros [Hc Hk]. split; auto.
Qed.

(** ** Locating the cabinets of a bundle *)

(** The loop of [find_cabs] makes no request: it yields one path per
    matching name, in listing order. *)
Lemma run_find_cabs_loop (W : world) (w : state W) (base_path : string)
    (names : list string) :
  run W
    (for_each names (fun name =>
       if Str.endswith "_amd64" name
       then Yield (os_path.join3 base_path name "cab1.cab") (Ret tt)
       else Ret tt)) w =
  Outcome (inr tt) []
    (map (fun name => os_path.join3 base_path name "cab1.cab")
       (filter (Str.endswith "_amd64") names)) w.
Proof.
  induction names as [| name names IH]; [reflexivity |].
  cbn [for_each map filter]. rewrite run_bind.
  destruct (Str.endswith "_amd64" name); cbn [run result trace yielded final];
    rewrite IH; reflexivity.
Qed.

(** C7, as the code has it.  [find_cabs] lists exactly one directory,
    [AttachedContainer/packages] under the unpacked bundle, and yields, in
    listing order, [<name>/cab1.cab] under it for each listed name that ends
    in [_amd64], whatever kind of entry the name denotes, and nothing else.
    When the listing fails, the exception leaves the generator. *)
Theorem find_cabs_by_name (W : world) (w : state W) (directory : string) :
  let base_path := os_path.join3 directory "AttachedContainer" "packages" in
  run W (find_cabs directory) w =
  match handle W _ (Listdir base_path) w with
  | (inl e, w') => Outcome (inl e) [Ev (Listdir base_path) (inl e)] [] w'
  | (inr names, w') =>
      Outcome (inr tt) [Ev (Listdir base_path) (inr names)]
        (map (fun name => os_path.join3 base_path name "cab1.cab")
           (filter (Str.endswith "_amd64") names)) w'
  end.
Proof.
  intro base_path. unfold find_cabs. fold base_path.
  unfold perform. cbn [bind run].
  destruct (handle W _ (Listdir base_path) w) as [[e | names] w'].
  - reflexivity.
  - rewrite run_find_cabs_loop. reflexivity.
Qed.

(** C7, against the claim as worded: a plain file named [notes_amd64] in
    [packages] is no subdirectory, yet a path is yielded for it. *)
Lemma find_cabs_yields_for_plain_file :
  let w := MemFS.offline Sample.odd_bundle in
  MemFS.is_dir (MemFS.nodes w) "/b/AttachedContainer/packages/notes_amd64"
    = false /\
  MemFS.is_file (MemFS.nodes w) "/b/AttachedContainer/packages/notes_amd64"
    = true /\
  yielded (run MemFS.W (find_cabs "/b") w) =
    [ "/b/AttachedContainer/packages/vcRuntimeMinimum_amd64/cab1.cab";
      "/b/AttachedContainer/packages/notes_amd64/cab1.cab" ].
Proof. repeat split. Qed.

(** ** Strings and paths *)








(** ** What each component asks for *)

Lemma only_download_file {Y} (uri dest : string) :
  only (download_requests uri dest) (@download_file Y uri dest).
Proof.
  unfold download_file, perform. cbn. split; [reflexivity |].
  intros [|]; cbn; [exact I |].
  split; [reflexivity |]. intro chunks. split; [reflexivity |]. intros [].
  apply only_bind; [| intros; exact I].
  apply only_for_each. intro chunk.
  destruct (Str.truthy chunk); cbn; auto.
Qed.




Lemma returns_run {Y A} (P : A -> Prop) (p : prog Y A) :
  returns P p ->
  forall W w a, result (run W p w) = inr a -> P a.
Proof.
  induction p as [a | e | y k IH | X c k IH]; cbn; intros H W w r Hr.
  - now injection Hr as <-.
  - discriminate.
  - eauto.
  - destruct (handle W X c w) as [[e | x] w']; cbn in Hr;
      [discriminate | eauto].
Qed.

Lemma returns_bind {Y A B} (P : B -> Prop) (p : prog Y A)
    (f : A -> prog Y B) :
  (forall a, returns P (f a)) -> returns P (bind p f).
Proof. intro H. induction p; cbn; auto. Qed.

Lemma returns_fetch_wix {Y} (download_directory : string) :
  returns (eq (os_path.join download_directory "__wix"))
    (@fetch_wix Y download_directory).
Proof.
  unfold fetch_wix. repeat (apply returns_bind; intro). reflexivity.
Qed.

Lemma returns_fetch_7zip {Y} (download_directory : string) :
  returns (eq (os_path.join (os_path.join download_directory "_7z") "7za.exe"))
    (@fetch_7zip Y download_directory).
Proof.
  unfold fetch_7zip. repeat (apply returns_bind; intro). reflexivity.
Qed.

(** ** Where the tools are kept *)




(** ** The age filter *)




Lemma silent_bind {Y A B} (p : prog Y A) (f : A -> prog Y B) :
  silent p -> (forall a, silent (f a)) -> silent (bind p f).
Proof. induction p; cbn; auto. Qed.

Lemma silent_for_each {Y X} (l : list X) (body : X -> prog Y unit) :
  (forall x, silent (body x)) -> silent (for_each l body).
Proof.
  intro H. induction l; cbn; [exact I | apply silent_bind; auto].
Qed.

Lemma silent_download_file {Y} (uri dest : string) :
  silent (@download_file Y uri dest).
Proof.
  unfold download_file, perform. cbn. intros [|]; cbn; [exact I |].
  intros chunks []. apply silent_bind; [| intros; exact I].
  apply silent_for_each. intro chunk. destruct (Str.truthy chunk); cbn; auto.
Qed.

Lemma returns_download_file {Y} (uri dest : string) :
  returns (eq dest) (@download_file Y uri dest).
Proof.
  unfold download_file, perform. cbn. intros [|]; cbn; [reflexivity |].
  intros chunks []. apply returns_bind. reflexivity.
Qed.




(** ** The loop body of [fetch_all] *)




Lemma existsb_false_Forall {A} (f : A -> bool) (l : list A) :
  Forall (fun x => f x = false) l -> existsb f l = false.
Proof.
  induction 1 as [| x l Hx _ IH]; cbn; [reflexivity | now rewrite Hx, IH].
Qed.






(** ** Already extracted *)


(** ** Choosing the extractor *)






(** ** Legacy extraction that extracts nothing *)



(** ** The in-memory world is a lawful file system *)

Module MemFSFacts.

Import MemFS.

Local Abbreviation store_grows := (grows is_file is_dir nonempty_dir).

Lemma grows_refl (s : list (string * node)) : store_grows s s.
Proof. intro p. auto. Qed.

Lemma grows_trans (s1 s2 s3 : list (string * node)) :
  store_grows s1 s2 -> store_grows s2 s3 -> store_grows s1 s3.
Proof.
  intros H12 H23 p. destruct (H12 p) as (? & ? & ?).
  destruct (H23 p) as (? & ? & ?). auto.
Qed.

Lemma lookup_cons (p q : string) (n : node) (s : list (string * node)) :
  lookup q ((p, n) :: s) = if String.eqb q p then Some n else lookup q s.
Proof. reflexivity. Qed.

Lemma grows_cons (p : string) (n : node) (s : list (string * node)) :
  keeps (lookup p s) n -> store_grows s ((p, n) :: s).
Proof.
  intros K q. unfold is_file, is_dir, nonempty_dir. rewrite lookup_cons.
  destruct (String.eqb_spec q p) as [-> | _]; [| auto].
  destruct (lookup p s) as [[d | [| e es]] |], n as [d' | [| e' es']];
    cbn in K; try contradiction; repeat split; congruence.
Qed.

Lemma grows_link (p : string) (s : list (string * node)) :
  store_grows s (link p s).
Proof.
  unfold link.
  destruct (lookup (parent p) s) as [[d | entries] |] eqn:E;
    try apply grows_refl.
  destruct (existsb _ entries); [apply grows_refl |].
  apply grows_cons. rewrite E. destruct entries; cbn; exact I.
Qed.

Lemma grows_mkdir (p : string) (s s' : list (string * node)) :
  mkdir p s = inr s' -> store_grows s s'.
Proof.
  unfold mkdir. destruct (lookup p s) as [[d | entries] |] eqn:E; intro H;
    try discriminate; injection H as <-.
  - apply grows_refl.
  - eapply grows_trans; [| apply grows_link].
    apply grows_cons. now rewrite E.
Qed.

Lemma grows_mkdirs (ps : list string) :
  forall s s', mkdirs ps s = inr s' -> store_grows s s'.
Proof.
  induction ps as [| p ps IH]; cbn; intros s s' H.
  - injection H as <-. apply grows_refl.
  - destruct (mkdir p s) as [e | s1] eqn:E; [discriminate |].
    eapply grows_trans; [eapply grows_mkdir; eassumption | eauto].
Qed.

Lemma grows_open_wb (p : string) (s s' : list (string * node)) :
  open_wb p s = inr s' -> store_grows s s'.
Proof.
  unfold open_wb.
  destruct (lookup p s) as [[d | entries] |] eqn:E; intro H;
    try discriminate;
    (destruct (is_dir s (parent p)); [injection H as <- | discriminate]);
    (eapply grows_trans; [| apply grows_link]);
    apply grows_cons; now rewrite E.
Qed.

Lemma is_file_open_wb (p : string) (s s' : list (string * node)) :
  open_wb p s = inr s' -> is_file s' p = true.
Proof.
  intro H.
  assert (s' = link p ((p, File "") :: s)) as ->.
  { unfold open_wb in H.
    destruct (lookup p s) as [[d | entries] |]; try discriminate;
      (destruct (is_dir s (parent p)); [injection H as <- | discriminate]);
      reflexivity. }
  destruct (grows_link p ((p, File "") :: s) p) as (Hf & _).
  apply Hf. unfold is_file. rewrite lookup_cons, String.eqb_refl.
  reflexivity.
Qed.

Lemma is_dir_mkdir (p : string) (s s' : list (string * node)) :
  mkdir p s = inr s' -> is_dir s' p = true.
Proof.
  unfold mkdir. destruct (lookup p s) as [[d | entries] |] eqn:E; intro H;
    try discriminate; injection H as <-.
  - unfold is_dir. now rewrite E.
  - destruct (grows_link p ((p, Dir []) :: s) p) as (_ & Hd & _).
    apply Hd. unfold is_dir. rewrite lookup_cons, String.eqb_refl.
    reflexivity.
Qed.

Lemma grows_put_file (s : list (string * node)) (f : string * string) :
  store_grows s (put_file s f).
Proof.
  destruct f as [p data]. unfold put_file.
  destruct (mkdirs (ancestors "" (parent p)) s) as [e | s1] eqn:E1;
    [apply grows_refl |].
  destruct (open_wb p s1) as [e | s2] eqn:E2; [apply grows_refl |].
  eapply grows_trans; [eapply grows_mkdirs; eassumption |].
  eapply grows_trans; [eapply grows_open_wb; eassumption |].
  apply grows_cons.
  pose proof (is_file_open_wb _ _ _ E2) as Hf. unfold is_file in Hf.
  destruct (lookup p s2) as [[d | entries] |]; try discriminate. exact I.
Qed.

Lemma grows_put_files (fs : list (string * string)) :
  forall s, store_grows s (fold_left put_file fs s).
Proof.
  induction fs as [| f fs IH]; cbn; intro s; [apply grows_refl |].
  eapply grows_trans; [apply grows_put_file | apply IH].
Qed.

Lemma grows_nodes (w w' : t) :
  store_grows (nodes w) (nodes w') -> grows isfile isdir nonempty w w'.
Proof. intro H. exact H. Qed.

Lemma grows_lift {X} (w : t) (x : X) (r : exn + list (string * node)) :
  (forall s', r = inr s' -> store_grows (nodes w) s') ->
  grows isfile isdir nonempty w (snd (lift w x r)).
Proof.
  intro H. destruct r as [e | s']; cbn.
  - apply grows_nodes, grows_refl.
  - apply grows_nodes. cbn. auto.
Qed.

Lemma lawful_world : lawful W isfile isdir nonempty.
Proof.
  constructor.
  - intros p w b w' H. cbn in H. now injection H as <- _.
  - intros p w b w' H. cbn in H. now injection H as <- _.
  - intros p w l w' H. cbn in H. unfold nonempty, nonempty_dir.
    destruct (lookup p (nodes w)) as [[d | entries] |]; try discriminate.
    injection H as <- _. destruct entries; reflexivity.
  - intros p w w' H. cbn in H. unfold lift in H.
    destruct (open_wb p (nodes w)) as [e | s'] eqn:E; [discriminate |].
    injection H as <-. unfold isfile. cbn. eapply is_file_open_wb; eassumption.
  - intros p w w' H. cbn in H.
    destruct (lookup p (nodes w)); [discriminate |].
    destruct (mkdirs _ (nodes w)) as [e | s1]; [discriminate |].
    unfold lift in H. destruct (mkdir p s1) as [e | s2] eqn:E; [discriminate |].
    injection H as <-. unfold isdir. cbn. eapply is_dir_mkdir; eassumption.
  - intros X c w Hext.
    destruct c; try discriminate; cbn [handle W respond snd];
      try (apply grows_nodes, grows_refl).
    + destruct (lookup path (nodes w)) as [[d | entries] |];
        apply grows_nodes, grows_refl.
    + destruct (lookup path (nodes w)); [apply grows_nodes, grows_refl |].
      destruct (mkdirs _ (nodes w)) as [e | s1] eqn:E1;
        [apply grows_nodes, grows_refl |].
      unfold lift. destruct (mkdir path s1) as [e | s2] eqn:E2;
        [apply grows_nodes, grows_refl |].
      apply grows_nodes. cbn.
      eapply grows_trans; [eapply grows_mkdirs | eapply grows_mkdir];
        eassumption.
    + destruct (lookup _ (nodes w)); [apply grows_nodes, grows_refl |].
      unfold lift. destruct (mkdir _ (nodes w)) as [e | s2] eqn:E2;
        [apply grows_nodes, grows_refl |].
      apply grows_nodes. cbn. eapply grows_mkdir; eassumption.
    + destruct (assoc String.eqb uri (net w)); apply grows_nodes, grows_refl.
    + apply grows_lift. intros s' H. eapply grows_open_wb; eassumption.
    + destruct (lookup dest (nodes w)) as [[d | entries] |] eqn:E;
        try apply grows_nodes, grows_refl.
      apply grows_nodes. cbn. apply grows_cons. now rewrite E.
    + destruct (lookup zip_path (nodes w)) as [[d | entries] |];
        try apply grows_nodes, grows_refl.
      destruct (assoc String.eqb d (archives w));
        [| apply grows_nodes, grows_refl].
      destruct (mkdirs _ (nodes w)) as [e | s1] eqn:E1;
        [apply grows_nodes, grows_refl |].
      apply grows_nodes. cbn.
      eapply grows_trans; [eapply grows_mkdirs; eassumption |].
      apply grows_put_files.
Qed.

End MemFSFacts.

(** ** Generators and loops *)

Lemma bind_assoc_r {Y A B C} (p : prog Y A) (f : A -> prog Y C)
    (g : A -> prog Y B) (h : B -> prog Y C) :
  (forall a, eqp (f a) (bind (g a) h)) ->
  eqp (bind p f) (bind (bind p g) h).
Proof. intro H. induction p; cbn; try constructor; auto. Qed.

(** Looping over one generator after another is one loop after another. *)
Lemma for_in_seq {Y Z A} (g : prog Y A) (g' : prog Y unit)
    (body : Y -> prog Z unit) :
  eqp (for_in (bind g (fun _ => g')) body)
      (bind (for_in (bind g (fun _ => Ret tt)) body)
         (fun _ => for_in g' body)).
Proof.
  induction g as [a | e | y k IH | X c k IH]; cbn.
  - apply eqp_refl.
  - constructor.
  - apply bind_assoc_r. intros _. exact IH.
  - constructor. exact IH.
Qed.

(** The generator works through the head of the catalog, then through the
    rest. *)
Lemma fetch_runtimes_unroll (entry : string * string)
    (rest : list (string * string)) (download_directory : string)
    (include_old_versions : bool) :
  eqp (fetch_runtimes_of (entry :: rest) download_directory
         include_old_versions)
      (fetch_runtimes_of [entry] download_directory include_old_versions ;;
       fetch_runtimes_of rest download_directory include_old_versions).
Proof.
  destruct entry as [version uri]. cbn [fetch_runtimes_of].
  apply bind_assoc_r. intros [|]; [apply eqp_refl |].
  apply bind_assoc_r. intro destination. apply eqp_refl.
Qed.

Lemma run_bind_ret_tt {Y} (W : world) (p : prog Y unit) (w : state W) :
  run W (p ;; Ret tt) w = run W p w.
Proof.
  rewrite run_bind. destruct (run W p w) as [[e | []] t ys w']; cbn;
    rewrite ?app_nil_r; reflexivity.
Qed.

Lemma for_in_ret_tt {Y Z} (g : prog Y unit) (body : Y -> prog Z unit) :
  eqp (for_in (g ;; Ret tt) body) (for_in g body).
Proof.
  induction g as [[] | e | y k IH | X c k IH]; cbn; try constructor; auto.
  apply eqp_bind. intros _. exact IH.
Qed.

(** The loop of [fetch_all] is one [iteration] per catalog entry, in
    order. *)
Lemma loop_unroll {Y} (W : world) (w : state W) (entry : string * string)
    (rest : list (string * string))
    (base_directory download_directory wix_tool_location : string)
    (include_old_versions : bool) :
  let body := @fetch_all_body Y base_directory download_directory
                wix_tool_location in
  run W (for_in (fetch_runtimes_of (entry :: rest) download_directory
                   include_old_versions) body) w =
  run W (iteration base_directory download_directory wix_tool_location
           include_old_versions entry ;;
         for_in (fetch_runtimes_of rest download_directory
                   include_old_versions) body) w.
Proof.
  intro body.
  rewrite (eqp_run _ _ (eqp_for_in _ _ body
             (fetch_runtimes_unroll entry rest download_directory
                include_old_versions))).
  rewrite (eqp_run _ _ (for_in_seq _ _ body)).
  rewrite !run_bind.
  rewrite (eqp_run _ _ (for_in_ret_tt _ body)).
  reflexivity.
Qed.

(** ** Lawful file systems *)

Section Lawful.

Context (W : world) (isfile isdir nonempty : state W -> string -> bool).
Hypothesis laws : lawful W isfile isdir nonempty.

Local Abbreviation world_grows := (grows isfile isdir nonempty).

Lemma world_grows_refl (w : state W) : world_grows w w.
Proof. intro p. auto. Qed.

Lemma world_grows_trans (w1 w2 w3 : state W) :
  world_grows w1 w2 -> world_grows w2 w3 -> world_grows w1 w3.
Proof.
  intros H12 H23 p. destruct (H12 p) as (? & ? & ?).
  destruct (H23 p) as (? & ? & ?). auto.
Qed.

Lemma step_grows {X} (c : call X) (w w' : state W) (r : exn + X) :
  external c = false -> handle W X c w = (r, w') -> world_grows w w'.
Proof.
  intros Hc H. pose proof (only_grows _ _ _ _ laws X c w Hc) as G.
  now rewrite H in G.
Qed.

(** A run that starts no external program only lets the world grow. *)
Lemma quiet_run_grows {Y A} (p : prog Y A) :
  forall w,
    existsb is_subprocess (trace (run W p w)) = false ->
    world_grows w (final (run W p w)).
Proof.
  induction p as [a | e | y k IH | X c k IH]; cbn; intros w H.
  - apply world_grows_refl.
  - apply world_grows_refl.
  - auto.
  - destruct (handle W X c w) as [[e | x] w'] eqn:E; cbn in *;
      apply orb_false_iff in H; destruct H as [Hc Hrest].
    + eapply step_grows; [| exact E].
      destruct c; try reflexivity; discriminate.
    + eapply world_grows_trans; [| apply IH; exact Hrest].
      eapply step_grows; [| exact E].
      destruct c; try reflexivity; discriminate.
Qed.

End Lawful.

(** ** One turn of the loop, entry by entry *)

(** [download_file] inside the generator is [download_file] in the loop. *)
Lemma for_in_download {Y Z} (uri dest : string) (f : string -> prog Y unit)
    (body : Y -> prog Z unit) :
  eqp (for_in (d <- download_file uri dest ;; f d) body)
      (d <- download_file uri dest ;; for_in (f d) body).
Proof.
  unfold download_file, perform. cbn [bind for_in].
  constructor. intros [|]; cbn [bind for_in]; [apply eqp_refl |].
  constructor. intro chunks. constructor. intros [].
  induction chunks as [| chunk chunks IH]; cbn [for_each bind for_in].
  - apply eqp_refl.
  - destruct (Str.truthy chunk); cbn [bind for_in]; [| exact IH].
    constructor. intros []. exact IH.
Qed.

(** An entry that passes the filter: the installer is fetched, then the
    body runs on it. *)
Lemma iteration_considered {Y} (W : world) (w : state W)
    (base_directory download_directory wix_tool_location version uri : string)
    (include_old_versions : bool) :
  considered include_old_versions version = true ->
  run W (@iteration Y base_directory download_directory wix_tool_location
           include_old_versions (version, uri)) w =
  run W (installer <-
           download_file uri
             (installer_path download_directory (version, uri)) ;;
         fetch_all_body base_directory download_directory wix_tool_location
           (version, installer)) w.
Proof.
  intro Hc. unfold iteration. cbn [fetch_runtimes_of].
  assert (E : (if negb include_old_versions
               then (m <- @py_int (string * string) (major_text version) ;;
                     Ret (m <? 14)%Z)
               else Ret false) = Ret false).
  { unfold considered, major_of in Hc. unfold py_int.
    destruct include_old_versions; cbn [negb orb] in *; [reflexivity |].
    destruct (PyInt.parse (major_text version)) as [m |]; [| discriminate].
    cbn [bind]. f_equal. apply Z.ltb_ge. now apply Z.leb_le. }
  rewrite E. cbn [bind].
  rewrite (eqp_run _ _ (for_in_download _ _ _ _)).
  unfold installer_path. cbn [fst snd].
  rewrite !run_bind.
  destruct (result (run W (download_file uri _) w)); [reflexivity |].
  cbn [for_in]. rewrite run_bind_ret_tt. reflexivity.
Qed.

(** An entry the filter drops takes no turn at all. *)
Lemma iteration_filtered {Y} (W : world) (w : state W)
    (base_directory download_directory wix_tool_location version uri : string)
    (m : Z) :
  major_of version = Some m -> (m < 14)%Z ->
  run W (@iteration Y base_directory download_directory wix_tool_location
           false (version, uri)) w = Outcome (inr tt) [] [] w.
Proof.
  intros Hm Hlt. unfold iteration. cbn [fetch_runtimes_of negb].
  unfold py_int. unfold major_of in Hm. rewrite Hm. cbn [bind].
  replace (m <? 14)%Z with true by (symmetry; now apply Z.ltb_lt).
  reflexivity.
Qed.

(** With the filter on, an entry whose version does not start with an
    integer ends the run. *)
Lemma iteration_malformed {Y} (W : world) (w : state W)
    (base_directory download_directory wix_tool_location version uri : string) :
  major_of version = None ->
  run W (@iteration Y base_directory download_directory wix_tool_location
           false (version, uri)) w =
  Outcome (inl (invalid_literal (major_text version))) [] [] w.
Proof.
  intro Hm. unfold iteration. cbn [fetch_runtimes_of negb].
  unfold py_int. unfold major_of in Hm. rewrite Hm. reflexivity.
Qed.

(** ** What stays on a lawful disk *)

Section OnDisk.

Context (W : world) (isfile isdir nonempty : state W -> string -> bool).
Hypothesis laws : lawful W isfile isdir nonempty.

Local Abbreviation world_grows := (grows isfile isdir nonempty).

Lemma internal_run_grows {Y A} (p : prog Y A) :
  only internal p -> forall w, world_grows w (final (run W p w)).
Proof.
  induction p as [a | e | y k IH | X c k IH]; cbn; intros H w.
  - apply world_grows_refl.
  - apply world_grows_refl.
  - auto.
  - destruct H as [Hc Hk].
    destruct (handle W X c w) as [[e | x] w'] eqn:E; cbn.
    + eapply step_grows; eauto.
    + eapply world_grows_trans; [eapply step_grows; eauto | auto].
Qed.

(** Once [download_file] has returned, its destination is a file. *)
Lemma download_file_ensures {Y} (uri dest x : string) (w w' : state W)
    (t : list event) (ys : list Y) :
  run W (download_file uri dest) w = Outcome (inr x) t ys w' ->
  isfile w' dest = true.
Proof.
  unfold download_file, perform. cbn [bind run].
  destruct (handle W _ (IsFile dest) w) as [[e | [|]] w0] eqn:E0;
    cbn [bind run]; intro H.
  - discriminate.
  - injection H as _ _ _ <-.
    destruct (step_grows W _ _ _ laws (IsFile dest) w w0 _ eq_refl E0 dest)
      as (Hf & _).
    apply Hf. exact (sound_isfile _ _ _ _ laws _ _ _ _ E0).
  - destruct (handle W _ (RequestsGet uri) w0) as [[e | chunks] w1];
      [discriminate |].
    cbn [bind run] in H.
    destruct (handle W _ (OpenWb dest) w1) as [[e | []] w2] eqn:E2;
      [discriminate |].
    cbn [result trace yielded final] in H. injection H as _ _ _ <-.
    match goal with
    | |- isfile (final (run W ?p w2)) dest = true =>
        assert (Hin : only internal p)
    end.
    { apply only_bind; [| intros; exact I].
      apply only_for_each. intro chunk.
      destruct (Str.truthy chunk); cbn; auto. split; [reflexivity | auto]. }
    destruct (internal_run_grows _ Hin w2 dest) as (Hf & _).
    apply Hf. exact (open_creates _ _ _ _ laws _ _ _ E2).
Qed.


End OnDisk.


(** ** Running again *)

Section Rerun.

Context (W : world) (isfile isdir nonempty : state W -> string -> bool).
Hypothesis laws : lawful W isfile isdir nonempty.

Local Abbreviation world_grows := (grows isfile isdir nonempty).

Lemma noisy_subprocess (t : list event) :
  existsb noisy t = false -> existsb is_subprocess t = false.
Proof.
  induction t as [| e t IH]; cbn; [reflexivity |]. unfold noisy at 1.
  intro H. apply orb_false_iff in H. destruct H as [H1 H2].
  apply orb_false_iff in H1. destruct H1 as [_ ->]. auto.
Qed.

Lemma noisy_network (t : list event) :
  existsb noisy t = false -> existsb is_network t = false.
Proof.
  induction t as [| e t IH]; cbn; [reflexivity |]. unfold noisy at 1.
  intro H. apply orb_false_iff in H. destruct H as [H1 H2].
  apply orb_false_iff in H1. destruct H1 as [-> _]. auto.
Qed.

(** With the archive in place, [fetch_wix] only unpacks it. *)
Lemma fetch_wix_cached {Y} (download_directory : string) (w : state W) :
  isfile w (os_path.join download_directory "__wix.zip") = true ->
  existsb noisy (trace (run W (@fetch_wix Y download_directory) w)) = false.
Proof.
  intro Hzip. unfold fetch_wix, perform. cbn [bind run].
  destruct (handle W _ (IsFile _) w) as [[e | present] w0] eqn:E0;
    [reflexivity |].
  rewrite <- (sound_isfile _ _ _ _ laws _ _ _ _ E0), Hzip.
  cbn [bind run].
  destruct (handle W _ (ZipExtractAll _ _) w0) as [[e | []] w1];
    reflexivity.
Qed.

(** With entries in the output directory, the body only says so. *)
Lemma body_cached {Y}
    (base_directory download_directory wix_tool_location ver installer
       : string) (w : state W) :
  nonempty w (os_path.join base_directory ("vcruntime_" ++ ver)) = true ->
  existsb noisy
    (trace (run W (@fetch_all_body Y base_directory download_directory
                     wix_tool_location (ver, installer)) w)) = false.
Proof.
  set (out := os_path.join base_directory ("vcruntime_" ++ ver)).
  intro Hne. unfold fetch_all_body. fold out. unfold py_int, perform.
  cbn [bind run].
  destruct (handle W _ (IsDir out) w) as [[e | found] w0] eqn:E0;
    [reflexivity |].
  pose proof (step_grows W _ _ _ laws (IsDir out) _ _ _ eq_refl E0) as G0.
  assert (exists w1 t1,
             world_grows w0 w1 /\ existsb noisy t1 = false /\
             forall A (k : unit -> prog Y A),
               run W (bind (if found then Ret tt else Vis (Makedirs out) Ret) k)
                 w0 =
               match (if found then inr tt
                      else fst (handle W _ (Makedirs out) w0)) with
               | inl e => Outcome (inl e) t1 [] w1
               | inr _ => prepend t1 (run W (k tt) w1)
               end) as (w1 & t1 & G1 & Ht1 & Hrun).
  { destruct found.
    - exists w0, []. split; [apply world_grows_refl | split; [reflexivity |]].
      intros A k. cbn [bind]. now rewrite prepend_nil.
    - destruct (handle W _ (Makedirs out) w0) as [[e | []] w1] eqn:E1;
        [exists w1, [Ev (Makedirs out) (inl e)]
        | exists w1, [Ev (Makedirs out) (inr tt)]];
        (split;
         [exact (step_grows W _ _ _ laws (Makedirs out) _ _ _ eq_refl E1)
         | split; [reflexivity |]]);
        intros A k; cbn [bind run fst]; now rewrite E1. }
  rewrite Hrun.
  destruct (if found then inr tt else fst (handle W _ (Makedirs out) w0));
    cbn [trace prepend existsb];
    change (noisy (Ev (IsDir out) (inr found))) with false; cbn [orb];
    [exact Ht1 |].
  rewrite existsb_app, Ht1. cbn [orb].
  destruct (PyInt.parse (major_text ver)) as [m |]; [| reflexivity].
  cbn [bind run].
  destruct (handle W _ (Listdir out) w1) as [[e | listing] w2] eqn:E2;
    [reflexivity |].
  pose proof (sound_listdir _ _ _ _ laws _ _ _ _ E2) as Hl.
  assert (Hne1 : nonempty w1 out = true) by apply G1, G0, Hne.
  rewrite Hne1 in Hl. destruct listing as [| name listing];
    [discriminate |].
  cbn [dispatch run existsb]. rewrite run_perform. reflexivity.
Qed.

Lemma iteration_cached {Y}
    (base_directory download_directory wix_tool_location : string)
    (include_old_versions : bool) (entry : string * string) (w : state W) :
  cached isfile nonempty base_directory download_directory
    include_old_versions [entry] w ->
  existsb noisy
    (trace (run W (@iteration Y base_directory download_directory
                     wix_tool_location include_old_versions entry) w))
  = false.
Proof.
  intro Hcached. destruct entry as [version uri].
  destruct (considered include_old_versions version) eqn:Hc.
  - destruct (Hcached (version, uri) (or_introl eq_refl) Hc) as [Hf Hn].
    unfold output_path in Hn. cbn [fst] in Hn.
    rewrite iteration_considered by exact Hc.
    unfold download_file, perform. cbn [bind run].
    destruct (handle W _ (IsFile _) w) as [[e | present] w0] eqn:E0;
      [reflexivity |].
    rewrite <- (sound_isfile _ _ _ _ laws _ _ _ _ E0), Hf.
    cbn [bind trace existsb].
    change (noisy (Ev (IsFile (installer_path download_directory
                                 (version, uri))) (inr true)))
      with false.
    cbn [orb]. apply body_cached.
    apply (step_grows W _ _ _ laws (IsFile _) _ _ _ eq_refl E0). exact Hn.
  - unfold considered in Hc. destruct include_old_versions; [discriminate |].
    cbn [orb] in Hc. destruct (major_of version) as [m |] eqn:Hm.
    + rewrite (iteration_filtered W w _ _ _ version uri m Hm);
        [reflexivity |].
      apply Z.leb_gt. exact Hc.
    + now rewrite (iteration_malformed W w _ _ _ version uri Hm).
Qed.

Lemma loop_cached {Y}
    (base_directory download_directory wix_tool_location : string)
    (include_old_versions : bool) (catalog : list (string * string)) :
  forall w,
    cached isfile nonempty base_directory download_directory
      include_old_versions catalog w ->
    existsb noisy
      (trace (run W
                (for_in (fetch_runtimes_of catalog download_directory
                           include_old_versions)
                   (@fetch_all_body Y base_directory download_directory
                      wix_tool_location)) w)) = false.
Proof.
  induction catalog as [| entry catalog IH]; intros w Hcached;
    [reflexivity |].
  rewrite loop_unroll, run_bind.
  assert (Hit : existsb noisy
                  (trace (run W (@iteration Y base_directory
                                   download_directory wix_tool_location
                                   include_old_versions entry) w)) = false).
  { apply iteration_cached. intros e [<- | []]. apply Hcached. now left. }
  destruct (result (run W (iteration _ _ _ _ entry) w)); [exact Hit |].
  cbn [trace]. rewrite existsb_app, Hit. cbn [orb]. apply IH.
  intros e He Hc. destruct (Hcached e (or_intror He) Hc) as [Hf Hn].
  pose proof (quiet_run_grows W _ _ _ laws
                (@iteration Y base_directory download_directory
                   wix_tool_location include_old_versions entry) w
                (noisy_subprocess _ Hit)) as G.
  split; now apply G.
Qed.

(** C2, as the code has it.  On a lawful file system let [Downloads]
    hold the WiX archive and, for every catalog entry that passes the age
    filter, the installer, and let the output directory of every such
    entry have entries.  Then a run of [fetch_all] makes no network
    request and starts no external program: neither 7-Zip nor [dark.exe]
    nor [expand.exe] is called.  (The WiX archive itself is unpacked
    again by every run, which this theorem does not exclude.) *)
Theorem rerun_is_quiet {Y} (catalog : list (string * string))
    (base_directory : string) (include_old_versions : bool) (w : state W) :
  let download_directory := os_path.join base_directory "Downloads" in
  isfile w (os_path.join download_directory "__wix.zip") = true ->
  cached isfile nonempty base_directory download_directory
    include_old_versions catalog w ->
  let o := run W (@fetch_all_of Y catalog base_directory
                    include_old_versions) w in
  existsb is_network (trace o) = false /\
  existsb is_subprocess (trace o) = false.
Proof.
  intros download_directory Hzip Hcached o.
  assert (H : existsb noisy (trace o) = false).
  { subst o. unfold fetch_all_of. fold download_directory.
    unfold perform. cbn [bind run].
    destruct (handle W _ (IsDir download_directory) w)
      as [[e | [|]] w0] eqn:E0; try reflexivity.
    cbn [negb trace existsb].
    change (noisy (Ev (IsDir download_directory) (inr true))) with false.
    cbn [orb].
    pose proof (step_grows W _ _ _ laws (IsDir download_directory) _ _ _
                  eq_refl E0) as G0.
    rewrite run_bind.
    assert (Hwix : existsb noisy
                     (trace (run W (@fetch_wix Y download_directory) w0))
                   = false)
      by (apply fetch_wix_cached; now apply G0).
    destruct (result (run W (fetch_wix download_directory) w0));
      [exact Hwix |].
    cbn [trace]. rewrite existsb_app, Hwix. cbn [orb].
    apply loop_cached. intros entry He Hc.
    destruct (Hcached entry He Hc) as [Hf Hn].
    pose proof (quiet_run_grows W _ _ _ laws
                  (@fetch_wix Y download_directory) w0
                  (noisy_subprocess _ Hwix)) as G1.
    split; apply G1; now apply G0. }
  split; [apply noisy_network | apply noisy_subprocess]; exact H.
Qed.

End Rerun.

Lemma rerun_is_quiet_witness :
  let o := run MemFS.W (@fetch_all Empty_set "/r" false) Sample.done in
  MemFS.isfile Sample.done (os_path.join (os_path.join "/r" "Downloads")
                              "__wix.zip") = true /\
  cached MemFS.isfile MemFS.nonempty "/r" (os_path.join "/r" "Downloads")
    false runtime_downloads Sample.done /\
  existsb is_network (trace o) = false /\
  existsb is_subprocess (trace o) = false.
Proof.
  intro o.
  assert (Hzip : MemFS.isfile Sample.done
                   (os_path.join (os_path.join "/r" "Downloads") "__wix.zip")
                 = true) by (vm_compute; reflexivity).
  assert (Hc : cached MemFS.isfile MemFS.nonempty "/r"
                 (os_path.join "/r" "Downloads") false runtime_downloads
                 Sample.done).
  { intros entry [<- | []] _. split; vm_compute; reflexivity. }
  split; [exact Hzip | split; [exact Hc |]].
  exact (rerun_is_quiet MemFS.W MemFS.isfile MemFS.isdir MemFS.nonempty
           MemFSFacts.lawful_world (Y := Empty_set) runtime_downloads "/r"
           false Sample.done Hzip Hc).
Defined.

(** C2, against the claim as worded.  On the disk a complete first run has
    left, with the installer in [Downloads] and the DLL in the output
    directory, a second run unpacks the WiX archive once more: one
    extraction is invoked.  And when the installer and the output directory
    are in place but the WiX archive is not, the run asks the network for
    it. *)
Lemma rerun_unpacks_wix_again :
  let again := run MemFS.W (@fetch_all Empty_set "/r" false) Sample.done in
  let short := run MemFS.W (@fetch_all Empty_set "/r" false)
                 Sample.no_wix_archive in
  (cached MemFS.isfile MemFS.nonempty "/r" "/r/Downloads" false
     runtime_downloads Sample.done /\
   trace again =
     [ Ev (IsDir "/r/Downloads") (inr true);
       Ev (IsFile "/r/Downloads/__wix.zip") (inr true);
       Ev (ZipExtractAll "/r/Downloads/__wix.zip" "/r/Downloads/__wix")
         (inr tt);
       Ev (IsFile Sample.installer) (inr true);
       Ev (IsDir "/r/vcruntime_14.42.34438.0") (inr true);
       Ev (Listdir "/r/vcruntime_14.42.34438.0") (inr ["vcruntime140.dll"]);
       Ev (Print "Already have 14.42.34438.0") (inr tt) ] /\
   existsb is_extraction (trace again) = true) /\
  (cached MemFS.isfile MemFS.nonempty "/r" "/r/Downloads" false
     runtime_downloads Sample.no_wix_archive /\
   existsb is_network (trace short) = true).
Proof.
  intros again short. split; [split; [| split] | split].
  - intros entry [<- | []] _. split; vm_compute; reflexivity.
  - vm_compute. reflexivity.
  - vm_compute. reflexivity.
  - intros entry [<- | []] _. split; vm_compute; reflexivity.
  - vm_compute. reflexivity.
Qed.

(** * More about the script *)

(** ** Downloading *)

Lemma written_chunks_app (t t' : list event) :
  written_chunks (t ++ t')%list = (written_chunks t ++ written_chunks t')%list.
Proof. unfold written_chunks. apply flat_map_app. Qed.

(** The write loop of [download_file] hands the non-empty chunks to
    [f.write], in order, up to the first failure. *)
Lemma write_loop_chunks {Y} (W : world) (dest : string)
    (chunks : list string) :
  forall w,
    let o := run W (@for_each Y _ chunks (fun chunk =>
                      if Str.truthy chunk
                      then perform (WriteChunk dest chunk)
                      else Ret tt)) w in
    exists rest,
      filter Str.truthy chunks = (written_chunks (trace o) ++ rest)%list /\
      (result o = inr tt -> rest = []).
Proof.
  induction chunks as [| chunk chunks IH]; intro w; cbn zeta.
  - exists []. split; reflexivity.
  - cbn [for_each filter]. destruct (Str.truthy chunk).
    + unfold perform. cbn [bind run].
      destruct (handle W _ (WriteChunk dest chunk) w) as [[e | []] w'].
      * exists (filter Str.truthy chunks). split; [reflexivity | discriminate].
      * destruct (IH w') as [rest [Hw Hr]]. exists rest.
        cbn [trace result]. split; [| exact Hr].
        change (written_chunks (Ev (WriteChunk dest chunk) (inr tt) :: ?t))
          with (chunk :: written_chunks t).
        cbn [app]. now rewrite Hw.
    + cbn [bind]. apply IH.
Qed.

(** X1.  On a cache miss [download_file] asks for the body first and opens
    the destination only once the request has been answered.  What it then
    writes is the non-empty chunks of the body, in the order they arrive:
    a zero-length chunk is never written, a chunk is never written twice
    or out of turn, and when [download_file] returns (it returns the
    destination) every non-empty chunk has been written. *)
Theorem download_file_writes_nonempty_chunks {Y} (W : world)
    (w w0 w1 w2 : state W) (uri dest : string) (chunks : list string) :
  handle W _ (IsFile dest) w = (inr false, w0) ->
  handle W _ (RequestsGet uri) w0 = (inr chunks, w1) ->
  handle W _ (OpenWb dest) w1 = (inr tt, w2) ->
  let o := run W (@download_file Y uri dest) w in
  exists writes rest,
    trace o = ([ Ev (IsFile dest) (inr false);
                 Ev (RequestsGet uri) (inr chunks);
                 Ev (OpenWb dest) (inr tt) ] ++ writes)%list /\
    filter Str.truthy chunks = (written_chunks writes ++ rest)%list /\
    (forall x, result o = inr x -> x = dest /\ rest = []).
Proof.
  intros H0 H1 H2 o. subst o. unfold download_file, perform.
  cbn [bind run]. rewrite H0. cbn [bind run]. rewrite H1. cbn [bind run].
  rewrite H2. cbn [result trace].
  match goal with
  | |- context [run W (bind ?loop _) w2] =>
      destruct (write_loop_chunks (Y := Y) W dest chunks w2)
        as [rest [Hw Hr]];
      exists (trace (run W (bind loop (fun _ => Ret dest)) w2))
  end.
  cbn zeta in Hw, Hr. rewrite run_bind.
  destruct (result (run W (for_each chunks _) w2)) as [e | []] eqn:E.
  - exists rest. cbn [trace result]. repeat split; auto; discriminate.
  - exists rest. cbn [trace result run]. rewrite app_nil_r.
    split; [reflexivity | split; [exact Hw |]].
    intros x Hx. injection Hx as <-. auto.
Qed.

Lemma download_file_writes_nonempty_chunks_witness :
  let w := Sample.online in
  let dest := "/r/Downloads/__wix.zip" in
  let w2 := snd (handle MemFS.W _ (OpenWb dest) w) in
  let o := run MemFS.W (@download_file Empty_set Sample.wix_uri dest) w in
  handle MemFS.W _ (IsFile dest) w = (inr false, w) /\
  handle MemFS.W _ (RequestsGet Sample.wix_uri) w = (inr ["PK"; ""; "wix"], w) /\
  handle MemFS.W _ (OpenWb dest) w = (inr tt, w2) /\
  exists writes rest,
    trace o = ([ Ev (IsFile dest) (inr false);
                 Ev (RequestsGet Sample.wix_uri) (inr ["PK"; ""; "wix"]);
                 Ev (OpenWb dest) (inr tt) ] ++ writes)%list /\
    filter Str.truthy ["PK"; ""; "wix"]
      = (written_chunks writes ++ rest)%list /\
    (forall x, result o = inr x -> x = dest /\ rest = []).
Proof.
  intros w dest w2 o. do 3 (split; [reflexivity |]).
  exact (download_file_writes_nonempty_chunks (Y := Empty_set) MemFS.W w w w w2
           Sample.wix_uri dest ["PK"; ""; "wix"] eq_refl eq_refl eq_refl).
Defined.

Section DownloadCache.

Context (W : world) (isfile isdir nonempty : state W -> string -> bool).
Hypothesis laws : lawful W isfile isdir nonempty.

(** A destination that is a file makes [download_file] leave the network
    alone. *)
Lemma present_download_is_quiet {Y} (uri dest : string) (w : state W) :
  isfile w dest = true ->
  existsb is_network (trace (run W (@download_file Y uri dest) w)) = false.
Proof.
  intro Hf. unfold download_file, perform. cbn [bind run].
  destruct (handle W _ (IsFile dest) w) as [[e | present] w0] eqn:E0;
    [reflexivity |].
  rewrite <- (sound_isfile _ _ _ _ laws _ _ _ _ E0), Hf. reflexivity.
Qed.


(** X2.  On a lawful file system [download_file] is idempotent: once it has
    returned, its destination is a file, and calling it again on that
    destination, with the same or any other URL, makes no network
    request. *)
Theorem download_file_twice {Y} (uri uri' dest x : string) (w w' : state W)
    (t : list event) (ys : list Y) :
  run W (@download_file Y uri dest) w = Outcome (inr x) t ys w' ->
  isfile w' dest = true /\
  existsb is_network (trace (run W (@download_file Y uri' dest) w')) = false.
Proof.
  intro H.
  assert (Hf : isfile w' dest = true)
    by exact (download_file_ensures W _ _ _ laws _ _ _ _ _ _ _ H).
  split; [exact Hf | now apply present_download_is_quiet].
Qed.


End DownloadCache.


Lemma download_file_twice_witness :
  let w := Sample.online in
  let dest := "/r/Downloads/__wix.zip" in
  let o := run MemFS.W (@download_file Empty_set Sample.wix_uri dest) w in
  result o = inr dest /\
  MemFS.isfile (final o) dest = true /\
  existsb is_network
    (trace (run MemFS.W (@download_file Empty_set "https://example.invalid/other.zip"
                           dest) (final o))) = false.
Proof.
  intros w dest o. split; [reflexivity |].
  exact (download_file_twice MemFS.W MemFS.isfile MemFS.isdir MemFS.nonempty
           MemFSFacts.lawful_world (Y := Empty_set) Sample.wix_uri
           "https://example.invalid/other.zip" dest dest w (final o)
           (trace o) [] eq_refl).
Defined.


(** ** Fetching the tools *)

Lemma existsb_Forall_false {A} (f : A -> bool) (P : A -> Prop) (l : list A) :
  (forall x, P x -> f x = false) -> Forall P l -> existsb f l = false.
Proof.
  intros H HP. apply existsb_false_Forall.
  eapply Forall_impl; [| exact HP]. exact H.
Qed.

(** X4.  Whenever [fetch_wix] returns it has just unpacked the archive:
    the [extractall] of [__wix.zip] into [__wix] is the last request of the
    run and the only extraction in it, whether the archive was already
    there or had to be downloaded; and the value returned is the [__wix]
    directory.  Nothing guards the extraction, unlike the 7-Zip tools. *)
Theorem fetch_wix_always_unpacks {Y} (W : world) (w : state W)
    (download_directory p : string) :
  let o := run W (@fetch_wix Y download_directory) w in
  result o = inr p ->
  p = os_path.join download_directory "__wix" /\
  exists t,
    trace o =
      (t ++ [Ev (ZipExtractAll (os_path.join download_directory "__wix.zip")
                   (os_path.join download_directory "__wix")) (inr tt)])%list /\
    existsb is_zip_extract t = false.
Proof.
  intros o Hr. split.
  { symmetry.
    exact (returns_run _ _ (returns_fetch_wix download_directory) W w p Hr). }
  subst o. revert Hr. unfold fetch_wix, perform. cbn [bind run].
  destruct (handle W _ (IsFile _) w) as [[e | present] w0];
    [discriminate |].
  cbn [result trace]. rewrite run_bind.
  set (pre := run W (if present then Ret tt
                     else (download_file _ _ ;; Ret tt)) w0).
  assert (Hpre : existsb is_zip_extract (trace pre) = false).
  { apply (existsb_Forall_false _
             (about (download_requests
                       ("https://github.com/wixtoolset/wix3/releases/download/" ++
                        "wix3111rtm/wix311-binaries.zip")
                       (os_path.join download_directory "__wix.zip")))).
    - intros [X c r]. destruct c; cbn; try reflexivity; contradiction.
    - subst pre. apply only_run. destruct present; [exact I |].
      apply only_bind; [apply only_download_file | intros; exact I]. }
  destruct (result pre) as [e | []]; [discriminate |].
  cbn [bind run].
  destruct (handle W _ (ZipExtractAll _ _) (final pre)) as [[e | []] w1];
    [discriminate |].
  cbn [result trace]. intros _.
  exists (Ev (IsFile (os_path.join download_directory "__wix.zip"))
            (inr present) :: trace pre).
  split; [reflexivity |]. cbn [existsb]. rewrite Hpre. reflexivity.
Qed.

Lemma fetch_wix_always_unpacks_witness :
  let o := run MemFS.W (@fetch_wix Empty_set "/r/Downloads") Sample.done in
  result o = inr "/r/Downloads/__wix" /\
  exists t,
    trace o =
      (t ++ [Ev (ZipExtractAll (os_path.join "/r/Downloads" "__wix.zip")
                   (os_path.join "/r/Downloads" "__wix")) (inr tt)])%list /\
    existsb is_zip_extract t = false.
Proof.
  intro o.
  assert (Hr : result o = inr "/r/Downloads/__wix") by (vm_compute; reflexivity).
  split; [exact Hr |].
  exact (proj2 (fetch_wix_always_unpacks (Y := Empty_set) MemFS.W Sample.done
                  "/r/Downloads" "/r/Downloads/__wix" Hr)).
Defined.

Section ToolCache.

Context (W : world) (isfile isdir nonempty : state W -> string -> bool).
Hypothesis laws : lawful W isfile isdir nonempty.

(** X5.  On a lawful file system [fetch_7zip] is guarded three times over:
    with [__7zr.exe] and [7z2301-extra.7z] in the download directory it
    makes no network request, and when [_7z] is a directory as well it
    starts no process either, so that the tools are downloaded and
    unpacked once and found again by later calls. *)
Theorem fetch_7zip_cached {Y} (download_directory : string) (w : state W) :
  isfile w (os_path.join download_directory "__7zr.exe") = true ->
  isfile w (os_path.join download_directory "7z2301-extra.7z") = true ->
  let o := run W (@fetch_7zip Y download_directory) w in
  existsb is_network (trace o) = false /\
  (isdir w (os_path.join download_directory "_7z") = true ->
   existsb is_subprocess (trace o) = false).
Proof.
  intros Hexe Harc o. subst o.
  unfold fetch_7zip, perform. cbn [bind run].
  destruct (handle W _ (IsFile (os_path.join download_directory "__7zr.exe")) w)
    as [[e | have_exe] w0] eqn:E0; [split; reflexivity |].
  pose proof (step_grows W _ _ _ laws (IsFile _) _ _ _ eq_refl E0) as G0.
  rewrite <- (sound_isfile _ _ _ _ laws _ _ _ _ E0), Hexe. cbn [bind run].
  destruct (handle W _ (IsFile (os_path.join download_directory
                                  "7z2301-extra.7z")) w0)
    as [[e | have_archive] w1] eqn:E1; [split; reflexivity |].
  pose proof (step_grows W _ _ _ laws (IsFile _) _ _ _ eq_refl E1) as G1.
  rewrite <- (sound_isfile _ _ _ _ laws _ _ _ _ E1).
  replace (isfile w0 (os_path.join download_directory "7z2301-extra.7z"))
    with true by (symmetry; now apply G0).
  cbn [bind run].
  destruct (handle W _ (IsDir (os_path.join download_directory "_7z")) w1)
    as [[e | have_tools] w2] eqn:E2; [split; reflexivity |].
  split.
  - destruct have_tools; cbn [bind run]; [reflexivity |].
    destruct (handle W _ (SubprocessCall _) w2) as [[e | rc] w3]; reflexivity.
  - intro Hdir.
    rewrite <- (sound_isdir _ _ _ _ laws _ _ _ _ E2).
    replace (isdir w1 (os_path.join download_directory "_7z"))
      with true by (symmetry; now apply G1, G0).
    reflexivity.
Qed.

End ToolCache.

Lemma fetch_7zip_cached_witness :
  let w := Sample.old_world in
  let o := run MemFS.W (@fetch_7zip Empty_set "/r/Downloads") w in
  MemFS.isfile w (os_path.join "/r/Downloads" "__7zr.exe") = true /\
  MemFS.isfile w (os_path.join "/r/Downloads" "7z2301-extra.7z") = true /\
  MemFS.isdir w (os_path.join "/r/Downloads" "_7z") = true /\
  existsb is_network (trace o) = false /\
  existsb is_subprocess (trace o) = false.
Proof.
  intros w o. do 3 (split; [reflexivity |]).
  destruct (fetch_7zip_cached MemFS.W MemFS.isfile MemFS.isdir MemFS.nonempty
              MemFSFacts.lawful_world (Y := Empty_set) "/r/Downloads" w
              eq_refl eq_refl) as [Hn Hs].
  split; [exact Hn | exact (Hs eq_refl)].
Defined.

(** ** The two extraction blocks *)

Lemma processes_app (t t' : list event) :
  processes (t ++ t')%list = (processes t ++ processes t')%list.
Proof. unfold processes. apply flat_map_app. Qed.

Lemma for_each_map {Y X X'} (f : X -> X') (l : list X)
    (body : X' -> prog Y unit) :
  for_each (map f l) body = for_each l (fun x => body (f x)).
Proof. induction l as [| x l IH]; cbn; [reflexivity | now rewrite IH]. Qed.

(** A loop of [extract_cab] starts [expand.exe] on the sources in order, up
    to the first call that cannot be started; the exit status of a call
    plays no part. *)
Lemma expand_loop_processes {Y} (W : world) (destination : string)
    (sources : list string) :
  forall w,
    let o := run W (@for_each Y _ sources
                      (fun source => extract_cab source destination)) w in
    exists rest,
      expand_calls sources destination = (processes (trace o) ++ rest)%list /\
      (result o = inr tt -> rest = []).
Proof.
  induction sources as [| source sources IH]; intro w; cbn zeta.
  - exists []. split; reflexivity.
  - cbn [for_each]. unfold extract_cab, perform. cbn [bind run].
    destruct (handle W _ (SubprocessCall _) w) as [[e | rc] w'].
    + exists (expand_calls sources destination).
      split; [reflexivity | discriminate].
    + destruct (IH w') as [rest [Hp Hr]]. exists rest.
      cbn [trace result]. split; [| exact Hr].
      change (processes (Ev (SubprocessCall ?a) ?r :: ?t))
        with (a :: processes t).
      change (expand_calls (source :: sources) destination)
        with (["expand.exe"; "-F:*"; source; destination]
                :: expand_calls sources destination).
      cbn [app]. f_equal. exact Hp.
Qed.

(** Looping over what [find_cabs] yields for a listing is looping over the
    cabinet paths of the names that end in [_amd64]. *)
Lemma for_in_find_cabs_loop {Z} (base_path : string) (names : list string)
    (body : string -> prog Z unit) :
  eqp (for_in
         (for_each names (fun name =>
            if Str.endswith "_amd64" name
            then Yield (os_path.join3 base_path name "cab1.cab") (Ret tt)
            else Ret tt)) body)
      (for_each
         (map (fun name => os_path.join3 base_path name "cab1.cab")
            (filter (Str.endswith "_amd64") names)) body).
Proof.
  induction names as [| name names IH]; cbn [for_each filter map for_in].
  - constructor.
  - destruct (Str.endswith "_amd64" name); cbn [bind for_in map for_each].
    + apply eqp_bind. intros _. exact IH.
    + exact IH.
Qed.

(** X6.  The bundle block, when a temporary directory is to be had and
    [dark.exe] can be started: [dark.exe] is run once on the installer,
    whatever status it exits with; the [packages] directory of its output
    is listed once; and [expand.exe] is then started on [cab1.cab] of each
    listed name ending in [_amd64], in listing order, into the output
    directory.  No other process is started, and when the block returns
    none of these has been left out. *)
Theorem bundle_block_expands_amd64_cabs {Y} (W : world)
    (w w1 w2 w3 : state W)
    (wix_tool_location installer output_directory tmp : string) (rc : Z)
    (names : list string) :
  let packages := os_path.join3 tmp "AttachedContainer" "packages" in
  let dark := [os_path.join wix_tool_location "dark.exe"; "-nologo"; "-x";
               tmp; installer] in
  handle W _ Mkdtemp w = (inr tmp, w1) ->
  handle W _ (SubprocessCall dark) w1 = (inr rc, w2) ->
  handle W _ (Listdir packages) w2 = (inr names, w3) ->
  let o := run W (@bundle_block Y wix_tool_location installer
                    output_directory) w in
  exists rest,
    (dark ::
     expand_calls
       (map (fun name => os_path.join3 packages name "cab1.cab")
          (filter (Str.endswith "_amd64") names)) output_directory)
    = (processes (trace o) ++ rest)%list /\
    (result o = inr tt -> rest = []).
Proof.
  intros packages dark H1 H2 H3 o. subst o.
  unfold bundle_block, extract_burn_bundle, perform. cbn [bind run].
  rewrite H1. cbn [bind run]. fold dark. rewrite H2. cbn [bind run].
  unfold find_cabs, perform. fold packages. cbn [bind for_in run].
  rewrite H3. rewrite (eqp_run _ _ (for_in_find_cabs_loop packages names _)).
  destruct (expand_loop_processes (Y := Y) W output_directory
              (map (fun name => os_path.join3 packages name "cab1.cab")
                 (filter (Str.endswith "_amd64") names)) w3)
    as [rest [Hp Hr]].
  cbn zeta in Hp, Hr. exists rest. cbn [trace result].
  split; [| exact Hr].
  change (processes (Ev Mkdtemp ?r :: Ev (SubprocessCall dark) ?r' ::
                     Ev (Listdir packages) ?r'' :: ?t))
    with (dark :: processes t).
  cbn [app]. f_equal. exact Hp.
Qed.

(** X7.  The legacy block, once [fetch_7zip] has returned the extractor
    and 7-Zip has left something in the temporary directory: 7-Zip is run
    once on the installer with the filter [-i!*.cab], whatever status it
    exits with; the temporary directory is then listed a second time, and
    [expand.exe] is started on every entry of that second listing, in
    order and whatever its name, into the output directory.  No other
    process is started after [fetch_7zip], and when the block returns none
    of these has been left out. *)
Theorem legacy_block_expands_every_file {Y} (W : world)
    (w w1 w2 w3 w4 w5 : state W)
    (download_directory installer output_directory seven_zip_exe tmp name
       : string)
    (t : list event) (rc : Z) (names cabs : list string) :
  let seven := [seven_zip_exe; "x"; "-o" ++ tmp; installer; "-i!*.cab"] in
  run W (@fetch_7zip Y download_directory) w
    = Outcome (inr seven_zip_exe) t [] w1 ->
  handle W _ Mkdtemp w1 = (inr tmp, w2) ->
  handle W _ (SubprocessCall seven) w2 = (inr rc, w3) ->
  handle W _ (Listdir tmp) w3 = (inr (name :: names), w4) ->
  handle W _ (Listdir tmp) w4 = (inr cabs, w5) ->
  let o := run W (@legacy_block Y download_directory installer
                    output_directory) w in
  exists rest,
    (processes t ++
     seven :: expand_calls (map (os_path.join tmp) cabs) output_directory)%list
    = (processes (trace o) ++ rest)%list /\
    (result o = inr tt -> rest = []).
Proof.
  intros seven H7 H1 H2 H3 H4 o. subst o.
  unfold legacy_block. rewrite run_bind, H7. cbn [result final trace yielded].
  unfold extract_old_installer, perform. cbn [bind run].
  rewrite H1. cbn [bind run]. fold seven. rewrite H2. cbn [bind run].
  rewrite H3. cbn [bind run]. rewrite H4.
  rewrite <- (for_each_map (os_path.join tmp) cabs
                (fun source => extract_cab source output_directory)).
  destruct (expand_loop_processes (Y := Y) W output_directory
              (map (os_path.join tmp) cabs) w5) as [rest [Hp Hr]].
  cbn zeta in Hp, Hr. exists rest. cbn [trace result].
  split; [| exact Hr].
  rewrite processes_app.
  change (processes (Ev Mkdtemp ?r :: Ev (SubprocessCall seven) ?r' ::
                     Ev (Listdir tmp) ?r'' :: Ev (Listdir tmp) ?r3 :: ?t'))
    with (seven :: processes t').
  rewrite <- app_assoc. cbn [app]. do 2 f_equal. exact Hp.
Qed.

Lemma bundle_block_expands_amd64_cabs_witness :
  let w := fetched in
  let packages := "/tmp/tmp0/AttachedContainer/packages" in
  let dark := ["/r/Downloads/__wix/dark.exe"; "-nologo"; "-x"; "/tmp/tmp0";
               Sample.installer] in
  let w1 := snd (handle MemFS.W _ Mkdtemp w) in
  let w2 := snd (handle MemFS.W _ (SubprocessCall dark) w1) in
  let o := run MemFS.W
             (@bundle_block Empty_set "/r/Downloads/__wix" Sample.installer
                "/r/vcruntime_14.42.34438.0") w in
  handle MemFS.W _ Mkdtemp w = (inr "/tmp/tmp0", w1) /\
  handle MemFS.W _ (SubprocessCall dark) w1 = (inr 0%Z, w2) /\
  handle MemFS.W _ (Listdir packages) w2
    = (inr ["vcRuntimeMinimum_amd64"], w2) /\
  exists rest,
    (dark ::
     expand_calls
       (map (fun name => os_path.join3
                           (os_path.join3 "/tmp/tmp0" "AttachedContainer"
                              "packages") name "cab1.cab")
          (filter (Str.endswith "_amd64") ["vcRuntimeMinimum_amd64"]))
       "/r/vcruntime_14.42.34438.0")
    = (processes (trace o) ++ rest)%list /\
    (result o = inr tt -> rest = []).
Proof.
  intros w packages dark w1 w2 o.
  assert (H1 : handle MemFS.W _ Mkdtemp w = (inr "/tmp/tmp0", w1))
    by (vm_compute; reflexivity).
  assert (H2 : handle MemFS.W _ (SubprocessCall dark) w1 = (inr 0%Z, w2))
    by (vm_compute; reflexivity).
  assert (H3 : handle MemFS.W _
                 (Listdir (os_path.join3 "/tmp/tmp0" "AttachedContainer"
                             "packages")) w2
               = (inr ["vcRuntimeMinimum_amd64"], w2))
    by (vm_compute; reflexivity).
  split; [exact H1 | split; [exact H2 | split; [exact H3 |]]].
  exact (bundle_block_expands_amd64_cabs (Y := Empty_set) MemFS.W w w1 w2 w2
           "/r/Downloads/__wix" Sample.installer "/r/vcruntime_14.42.34438.0"
           "/tmp/tmp0" 0%Z ["vcRuntimeMinimum_amd64"] H1 H2 H3).
Defined.

Lemma legacy_block_expands_every_file_witness :
  let w := Sample.old_world in
  let seven := ["/r/Downloads/_7z/7za.exe"; "x"; "-o" ++ "/tmp/tmp0";
                Sample.installer_2008; "-i!*.cab"] in
  let t := trace (run MemFS.W (@fetch_7zip Empty_set "/r/Downloads") w) in
  let w2 := snd (handle MemFS.W _ Mkdtemp w) in
  let w3 := snd (handle MemFS.W _ (SubprocessCall seven) w2) in
  let o := run MemFS.W
             (@legacy_block Empty_set "/r/Downloads" Sample.installer_2008
                "/r/vcruntime_9.0.30729.4148") w in
  run MemFS.W (@fetch_7zip Empty_set "/r/Downloads") w
    = Outcome (inr "/r/Downloads/_7z/7za.exe") t [] w /\
  handle MemFS.W _ (Listdir "/tmp/tmp0") w3 = (inr ["vc_red.cab"], w3) /\
  result o = inr tt /\
  exists rest,
    (processes t ++
     seven :: expand_calls (map (os_path.join "/tmp/tmp0") ["vc_red.cab"])
                "/r/vcruntime_9.0.30729.4148")%list
    = (processes (trace o) ++ rest)%list /\
    (result o = inr tt -> rest = []).
Proof.
  intros w seven t w2 w3 o.
  assert (H7 : run MemFS.W (@fetch_7zip Empty_set "/r/Downloads") w
               = Outcome (inr "/r/Downloads/_7z/7za.exe") t [] w)
    by (vm_compute; reflexivity).
  assert (H1 : handle MemFS.W _ Mkdtemp w = (inr "/tmp/tmp0", w2))
    by (vm_compute; reflexivity).
  assert (H2 : handle MemFS.W _ (SubprocessCall seven) w2 = (inr 0%Z, w3))
    by (vm_compute; reflexivity).
  assert (H3 : handle MemFS.W _ (Listdir "/tmp/tmp0") w3
               = (inr ["vc_red.cab"], w3))
    by (vm_compute; reflexivity).
  split; [exact H7 | split; [exact H3 | split; [vm_compute; reflexivity |]]].
  exact (legacy_block_expands_every_file (Y := Empty_set) MemFS.W
           w w w2 w3 w3 w3 "/r/Downloads" Sample.installer_2008
           "/r/vcruntime_9.0.30729.4148" "/r/Downloads/_7z/7za.exe"
           "/tmp/tmp0" "vc_red.cab" t 0%Z [] ["vc_red.cab"]
           H7 H1 H2 H3 H3).
Defined.

(** ** The loop, entry by entry *)

(** X8.  The catalog is worked through one entry at a time: the run of the
    loop on a catalog is the turn of its first entry followed, from the
    world that turn leaves, by the run of the loop on the rest, so that the
    installer of an entry is not even asked about before every earlier
    entry has been dealt with.  When the turn of an entry ends in an
    exception, so does the loop, there and then: no later entry is
    downloaded or extracted. *)
Theorem one_entry_at_a_time {Y} (W : world) (w : state W)
    (entry : string * string) (rest : list (string * string))
    (base_directory download_directory wix_tool_location : string)
    (include_old_versions : bool) :
  let body := @fetch_all_body Y base_directory download_directory
                wix_tool_location in
  let turn := run W (@iteration Y base_directory download_directory
                       wix_tool_location include_old_versions entry) w in
  let later := run W (for_in (fetch_runtimes_of rest download_directory
                                include_old_versions) body) (final turn) in
  let o := run W (for_in (fetch_runtimes_of (entry :: rest)
                            download_directory include_old_versions) body)
             w in
  match result turn with
  | inl e => result o = inl e /\ trace o = trace turn /\ final o = final turn
  | inr _ =>
      result o = result later /\
      trace o = (trace turn ++ trace later)%list /\
      final o = final later
  end.
Proof.
  intros body turn later o. subst o later body.
  rewrite loop_unroll, run_bind. fold turn.
  destruct (result turn); cbn; auto.
Qed.

(** X9.  Past the guard, the WiX tools come first: the requests of
    [fetch_wix] directly follow the [isdir] question, and when [fetch_wix]
    ends in an exception the run ends with it, before any entry of the
    catalog has been touched, entries that need only 7-Zip included. *)
Theorem wix_comes_first {Y} (W : world) (w w0 : state W)
    (catalog : list (string * string)) (base_directory : string)
    (include_old_versions : bool) :
  let download_directory := os_path.join base_directory "Downloads" in
  handle W _ (IsDir download_directory) w = (inr true, w0) ->
  let wix := run W (@fetch_wix Y download_directory) w0 in
  let o := run W (@fetch_all_of Y catalog base_directory
                    include_old_versions) w in
  (exists later,
      trace o = (Ev (IsDir download_directory) (inr true)
                 :: trace wix ++ later)%list) /\
  (forall e, result wix = inl e ->
             result o = inl e /\
             trace o = Ev (IsDir download_directory) (inr true) :: trace wix /\
             final o = final wix).
Proof.
  intros download_directory Hdir wix o. subst o.
  unfold fetch_all_of. fold download_directory. unfold perform.
  cbn [bind run]. rewrite Hdir. cbn [negb]. rewrite run_bind. fold wix.
  destruct (result wix) as [e | p]; cbn [result trace final].
  - split.
    + exists []. now rewrite app_nil_r.
    + intros e' He. injection He as <-. auto.
  - split; [eexists; reflexivity | discriminate].
Qed.

Lemma wix_comes_first_witness :
  let w := MemFS.offline Sample.old_disk in
  let wix := run MemFS.W (@fetch_wix Empty_set (os_path.join "/r" "Downloads"))
               w in
  let o := run MemFS.W
             (@fetch_all_of Empty_set [Sample.vc2008] "/r" true) w in
  handle MemFS.W _ (IsDir (os_path.join "/r" "Downloads")) w = (inr true, w) /\
  result wix = inl (LibraryError "ConnectionError") /\
  result o = inl (LibraryError "ConnectionError") /\
  trace o = Ev (IsDir (os_path.join "/r" "Downloads")) (inr true) :: trace wix /\
  final o = final wix.
Proof.
  intros w wix o. split; [reflexivity | split; [reflexivity |]].
  exact (proj2 (wix_comes_first (Y := Empty_set) MemFS.W w w [Sample.vc2008]
                  "/r" true eq_refl)
           (LibraryError "ConnectionError") eq_refl).
Defined.



(** ** What a run touches *)

Lemma only_bind_returns {Y A B} (P : forall X, call X -> Prop)
    (R : A -> Prop) (p : prog Y A) (f : A -> prog Y B) :
  only P p -> returns R p -> (forall a, R a -> only P (f a)) ->
  only P (bind p f).
Proof.
  induction p as [a | e | y k IH | X c k IH]; cbn; intros Hp Hr Hf; auto.
  destruct Hp as [Hc Hk]. split; auto.
Qed.

Lemma only_for_in_yields {Y Z} (P : forall X, call X -> Prop) (Q : Y -> Prop)
    (g : prog Y unit) (body : Y -> prog Z unit) :
  only P g -> yields Q g -> (forall y, Q y -> only P (body y)) ->
  only P (for_in g body).
Proof.
  induction g as [a | e | y k IH | X c k IH]; cbn; intros Hg Hy Hb; auto.
  - destruct Hy as [Hq Hk]. apply only_bind; auto.
  - destruct Hg as [Hc Hk]. split; auto.
Qed.

Lemma yields_bind_returns {Y A B} (Q : Y -> Prop) (R : A -> Prop)
    (p : prog Y A) (f : A -> prog Y B) :
  yields Q p -> returns R p -> (forall a, R a -> yields Q (f a)) ->
  yields Q (bind p f).
Proof.
  induction p as [a | e | y k IH | X c k IH]; cbn; intros Hp Hr Hf; auto.
  destruct Hp as [Hq Hk]. split; auto.
Qed.

Lemma silent_yields {Y A} (Q : Y -> Prop) (p : prog Y A) :
  silent p -> yields Q p.
Proof. induction p; cbn; auto; contradiction. Qed.

Lemma returns_true {Y A} (p : prog Y A) : returns (fun _ => True) p.
Proof. induction p; cbn; auto. Qed.

Section Footprint.

Variable catalog : list (string * string).
Variable base_directory : string.
Variable include_old_versions : bool.

Local Abbreviation download_directory :=
  (os_path.join base_directory "Downloads").
Local Abbreviation allowed :=
  (footprint catalog base_directory include_old_versions).

Lemma footprint_tool_download {Y} (uri dest : string) :
  In uri tool_uris -> In dest (tool_files download_directory) ->
  only allowed (@download_file Y uri dest).
Proof.
  intros Hu Hd. eapply only_weaken; [| apply only_download_file].
  intros X c. destruct c; cbn; try contradiction; intros ->;
    repeat split; cbn; auto.
Qed.

Lemma footprint_fetch_wix {Y} :
  only allowed (@fetch_wix Y download_directory).
Proof.
  unfold fetch_wix.
  apply only_bind; [cbn; repeat split; auto |]. intro have_zip.
  apply only_bind.
  { destruct have_zip; [exact I |].
    apply only_bind; [| intros; exact I].
    apply footprint_tool_download; cbn; auto. }
  intros _.
  apply only_bind; [cbn; repeat split; auto | intros; exact I].
Qed.

Lemma footprint_fetch_7zip {Y} :
  only allowed (@fetch_7zip Y download_directory).
Proof.
  unfold fetch_7zip.
  apply only_bind; [cbn; repeat split; auto |]. intro have_exe.
  apply only_bind.
  { destruct have_exe; [exact I |].
    apply only_bind; [| intros; exact I].
    apply footprint_tool_download; cbn; auto. }
  intros _.
  apply only_bind; [cbn; repeat split; auto |]. intro have_archive.
  apply only_bind.
  { destruct have_archive; [exact I |].
    apply only_bind; [| intros; exact I].
    apply footprint_tool_download; cbn; auto. }
  intros _.
  apply only_bind; [cbn; repeat split; auto |]. intro have_tools.
  apply only_bind; [| intros; exact I].
  destruct have_tools; [exact I |].
  apply only_bind; [| intros; exact I].
  cbn. repeat split; auto. left. reflexivity.
Qed.

Lemma footprint_extract_cab {Y} (source : string) (entry : string * string) :
  listed catalog include_old_versions entry ->
  only allowed
    (@extract_cab Y source (output_path base_directory (fst entry))).
Proof.
  intro He. unfold extract_cab.
  apply only_bind; [| intros; exact I].
  cbn. repeat split; auto. right. right. right. exists source, entry. auto.
Qed.

Lemma footprint_legacy_block {Y} (entry : string * string) :
  listed catalog include_old_versions entry ->
  only allowed
    (@legacy_block Y download_directory
       (installer_path download_directory entry)
       (output_path base_directory (fst entry))).
Proof.
  intro He. unfold legacy_block.
  apply (only_bind_returns _
           (eq (os_path.join (os_path.join download_directory "_7z")
                  "7za.exe")));
    [apply footprint_fetch_7zip | apply returns_fetch_7zip |].
  intros seven <-. unfold extract_old_installer.
  apply only_bind.
  { apply only_bind; [cbn; repeat split; auto |]. intro tmp.
    apply only_bind.
    { cbn. repeat split; auto. right. left. exists tmp, entry. auto. }
    intros _. apply only_bind; [cbn; repeat split; auto |].
    intros [| name names]; exact I. }
  intro cab_directory.
  apply only_bind; [cbn; repeat split; auto |]. intro cabs.
  apply only_for_each. intro cab. now apply footprint_extract_cab.
Qed.

Lemma footprint_bundle_block {Y} (entry : string * string) :
  listed catalog include_old_versions entry ->
  only allowed
    (@bundle_block Y (os_path.join download_directory "__wix")
       (installer_path download_directory entry)
       (output_path base_directory (fst entry))).
Proof.
  intro He. unfold bundle_block, extract_burn_bundle.
  apply only_bind.
  { apply only_bind; [cbn; repeat split; auto |]. intro tmp.
    apply only_bind; [| intros; exact I].
    cbn. repeat split; auto. right. right. left. exists tmp, entry. auto. }
  intro bundle. apply only_for_in.
  - unfold find_cabs. apply only_bind; [cbn; repeat split; auto |].
    intro names. apply only_for_each. intro name.
    destruct (Str.endswith "_amd64" name); cbn; exact I.
  - intro cab. now apply footprint_extract_cab.
Qed.

Lemma footprint_body {Y} (entry : string * string) :
  listed catalog include_old_versions entry ->
  only allowed
    (@fetch_all_body Y base_directory download_directory
       (os_path.join download_directory "__wix")
       (stored download_directory entry)).
Proof.
  intro He. unfold fetch_all_body, stored.
  fold (output_path base_directory (fst entry)).
  apply only_bind; [cbn; repeat split; auto |]. intro is_dir.
  apply only_bind.
  { destruct is_dir; [exact I |]. cbn. repeat split; auto.
    exists entry. auto. }
  intros _. apply only_bind.
  { unfold py_int. destruct (PyInt.parse _); exact I. }
  intro major_version.
  apply only_bind; [cbn; repeat split; auto |]. intro listing.
  unfold dispatch. destruct listing as [| name listing].
  - destruct (major_version =? 10)%Z.
    + split; [| intros; exact I]. repeat split. now left.
    + destruct (major_version <? 11)%Z;
        [now apply footprint_legacy_block | now apply footprint_bundle_block].
  - split; [| intros; exact I]. repeat split. right. exists entry. auto.
Qed.

(** The generator asks only for installers of listed entries and yields
    only listed entries with the path their installer is stored at. *)
Lemma footprint_fetch_runtimes (sub : list (string * string)) :
  (forall entry, In entry sub -> In entry catalog) ->
  only allowed
    (fetch_runtimes_of sub download_directory include_old_versions) /\
  yields (fun y => exists entry,
                     listed catalog include_old_versions entry /\
                     y = stored download_directory entry)
    (fetch_runtimes_of sub download_directory include_old_versions).
Proof.
  induction sub as [| [version uri] sub IH]; intro Hsub; [split; exact I |].
  destruct IH as [IHo IHy]; [intros e He; apply Hsub; now right |].
  cbn [fetch_runtimes_of].
  assert (Hcase :
            forall old : bool,
              (old = false ->
               listed catalog include_old_versions (version, uri)) ->
              only allowed
                (if old
                 then fetch_runtimes_of sub download_directory
                        include_old_versions
                 else
                   (destination <-
                      download_file uri
                        (os_path.join download_directory
                           (version ++ "_" ++ os_path.basename uri)) ;;
                    Yield (version, destination)
                      (fetch_runtimes_of sub download_directory
                         include_old_versions))) /\
              yields (fun y => exists entry,
                                 listed catalog include_old_versions entry /\
                                 y = stored download_directory entry)
                (if old
                 then fetch_runtimes_of sub download_directory
                        include_old_versions
                 else
                   (destination <-
                      download_file uri
                        (os_path.join download_directory
                           (version ++ "_" ++ os_path.basename uri)) ;;
                    Yield (version, destination)
                      (fetch_runtimes_of sub download_directory
                         include_old_versions)))).
  { intros [|] Hl; [split; assumption |].
    specialize (Hl eq_refl). split.
    - apply only_bind; [| intro; exact IHo].
      eapply only_weaken; [| apply only_download_file].
      intros X c. destruct c; cbn; try contradiction; intros ->;
        repeat split; cbn; auto; right; exists (version, uri); auto.
    - apply (yields_bind_returns _
               (eq (os_path.join download_directory
                      (version ++ "_" ++ os_path.basename uri)))).
      + apply silent_yields, silent_download_file.
      + apply returns_download_file.
      + intros dest <-. split; [| exact IHy].
        exists (version, uri). split; [| reflexivity].
        exact Hl. }
  assert (Hin : In (version, uri) catalog) by (apply Hsub; now left).
  unfold py_int.
  destruct include_old_versions eqn:Einc; cbn [negb bind].
  - apply (Hcase false). intros _. split; [exact Hin | reflexivity].
  - destruct (PyInt.parse (major_text version)) as [m |] eqn:Em;
      [| split; exact I].
    cbn [bind]. apply (Hcase (m <? 14)%Z). intro Hold. split; [exact Hin |].
    unfold considered, major_of. cbn [fst orb]. rewrite Em.
    apply Z.leb_le. apply Z.ltb_ge. exact Hold.
Qed.

Lemma footprint_fetch_all {Y} :
  only allowed
    (@fetch_all_of Y catalog base_directory include_old_versions).
Proof.
  unfold fetch_all_of.
  apply only_bind; [cbn; repeat split; auto |]. intro have_downloads.
  destruct (negb have_downloads); [exact I |].
  apply (only_bind_returns _ (eq (os_path.join download_directory "__wix")));
    [apply footprint_fetch_wix | apply returns_fetch_wix |].
  intros wix <-.
  destruct (footprint_fetch_runtimes catalog (fun e H => H)) as [Ho Hy].
  eapply only_for_in_yields; [exact Ho | exact Hy |].
  intros y [entry [He ->]]. now apply footprint_body.
Qed.

End Footprint.

(** X11.  Whatever the world answers, a run of [fetch_all] asks the network
    for nothing but the three tool downloads and the URLs of catalog
    entries that pass the age filter. *)
Theorem fetch_all_network_footprint {Y} (W : world) (w : state W)
    (catalog : list (string * string)) (base_directory : string)
    (include_old_versions : bool) :
  Forall (about (network_footprint catalog include_old_versions))
    (trace (run W (@fetch_all_of Y catalog base_directory
                     include_old_versions) w)).
Proof.
  apply only_run. eapply only_weaken; [| apply footprint_fetch_all].
  intros X c H. exact (proj1 H).
Qed.

(** X12.  Whatever the world answers, the only files a run of [fetch_all]
    opens or writes itself are [__wix.zip], [__7zr.exe], [7z2301-extra.7z]
    and the installers of entries that pass the age filter, all in the
    download directory; the only archive it unpacks itself is [__wix.zip],
    into [__wix]; and the only directories it makes itself are the output
    directories of entries that pass the filter.  In particular it never
    makes the destination or its [Downloads]. *)
Theorem fetch_all_disk_footprint {Y} (W : world) (w : state W)
    (catalog : list (string * string)) (base_directory : string)
    (include_old_versions : bool) :
  Forall (about (disk_footprint catalog base_directory include_old_versions))
    (trace (run W (@fetch_all_of Y catalog base_directory
                     include_old_versions) w)).
Proof.
  apply only_run. eapply only_weaken; [| apply footprint_fetch_all].
  intros X c H. exact (proj1 (proj2 H)).
Qed.

(** X13.  Whatever the world answers, every process a run of [fetch_all]
    starts is one of four: [__7zr.exe x] on the tool archive into [_7z];
    [_7z/7za.exe x ... -i!*.cab] on the installer of an entry that passes
    the age filter; [__wix/dark.exe -nologo -x] on such an installer; or
    [expand.exe -F:*] into the output directory of such an entry. *)
Theorem fetch_all_process_footprint {Y} (W : world) (w : state W)
    (catalog : list (string * string)) (base_directory : string)
    (include_old_versions : bool) :
  Forall (about (process_footprint catalog base_directory
                   include_old_versions))
    (trace (run W (@fetch_all_of Y catalog base_directory
                     include_old_versions) w)).
Proof.
  apply only_run. eapply only_weaken; [| apply footprint_fetch_all].
  intros X c H. exact (proj1 (proj2 (proj2 H))).
Qed.

(** X15.  Whatever the world answers, the only lines a run of [fetch_all]
    prints are "Cannot extract Visual C++ 2010 runtime. Skipping." and
    "Already have " followed by the version of a catalog entry that passes
    the age filter: downloads and extractions are not announced. *)
Theorem fetch_all_print_footprint {Y} (W : world) (w : state W)
    (catalog : list (string * string)) (base_directory : string)
    (include_old_versions : bool) :
  Forall (about (print_footprint catalog include_old_versions))
    (trace (run W (@fetch_all_of Y catalog base_directory
                     include_old_versions) w)).
Proof.
  apply only_run. eapply only_weaken; [| apply footprint_fetch_all].
  intros X c H. exact (proj2 (proj2 (proj2 H))).
Qed.

(** ** Cache file names *)






